(** * bw2mp: Bitwarden export to Mooltipass CSV (convert.py)

    A shallow embedding of [convert.py] and the properties of its
    conversion.  The document that [json.load] returns is a tree of Python
    values; the functions below give the Python operations the script uses
    on such a tree ([v[k]], [v.get(k, None)], [for x in v], [==], [in],
    truthiness, [str]) and then the script's own functions in the order of
    the source. *)

From Stdlib Require Import ZArith String Ascii List Bool Lia.
From Stdlib Require Import Floats.SpecFloat.
From stdpp Require Import base option list strings pretty gmap.

Local Open Scope Z_scope.
Local Open Scope string_scope.

(** ** Exceptions and results *)

(** The exceptions the script can end with.  [SystemExit None] is what the
    builtin [exit()] raises, [SystemExit (Some c)] is [sys.exit(c)]. *)
Inductive exn :=
| KeyError (key : string)
| TypeError
| AttributeError
| FileNotFoundError
| JSONDecodeError
| SystemExit (code : option Z).

Inductive result (A : Type) :=
| Ok (a : A)
| Raise (e : exn).
Arguments Ok {A} a.
Arguments Raise {A} e.

#[global] Instance result_mret : MRet result := fun _ a => Ok a.
#[global] Instance result_mbind : MBind result := fun _ _ f m =>
  match m with
  | Ok a => f a
  | Raise e => Raise e
  end.

(** The status the interpreter exits with. *)
Definition exit_status {A} (r : result A) : Z :=
  match r with
  | Ok _ => 0
  | Raise (SystemExit None) => 0
  | Raise (SystemExit (Some c)) => c
  | Raise _ => 1
  end.

(** ** Parsed JSON values *)

Set Warnings "-register-all".

(** What [json.load] builds: [None], [bool], [int], [float], [str], [list]
    and [dict] with string keys, the keys in document order. *)
Inductive json :=
| JNull
| JBool (b : bool)
| JInt (z : Z)
| JFloat (f : spec_float)
| JStr (s : string)
| JList (l : list json)
| JDict (d : list (string * json)).

Fixpoint dict_lookup (k : string) (d : list (string * json)) : option json :=
  match d with
  | [] => None
  | (k', v) :: d' => if String.eqb k k' then Some v else dict_lookup k d'
  end.

(** [bool(v)] *)
Definition truthy (v : json) : bool :=
  match v with
  | JNull => false
  | JBool b => b
  | JInt z => negb (Z.eqb z 0)
  | JFloat (S754_zero _) => false
  | JFloat _ => true
  | JStr s => negb (String.eqb s "")
  | JList l => match l with [] => false | _ => true end
  | JDict d => match d with [] => false | _ => true end
  end.

(** [v[k]] for a string constant [k] *)
Definition getitem (v : json) (k : string) : result json :=
  match v with
  | JDict d => match dict_lookup k d with
               | Some x => Ok x
               | None => Raise (KeyError k)
               end
  | _ => Raise TypeError
  end.

(** [v.get(k, None)] *)
Definition dict_get (v : json) (k : string) : result json :=
  match v with
  | JDict d => Ok (default JNull (dict_lookup k d))
  | _ => Raise AttributeError
  end.

Fixpoint chars (s : string) : list json :=
  match s with
  | EmptyString => []
  | String c s' => JStr (String c EmptyString) :: chars s'
  end.

(** The elements [for x in v] visits. *)
Definition py_iter (v : json) : result (list json) :=
  match v with
  | JList l => Ok l
  | JStr s => Ok (chars s)
  | JDict d => Ok (map (fun kv => JStr (fst kv)) d)
  | _ => Raise TypeError
  end.

(** *** Equality *)

Inductive number :=
| NInt (z : Z)
| NFloat (f : spec_float).

Definition as_number (v : json) : option number :=
  match v with
  | JBool b => Some (NInt (Z.b2z b))
  | JInt z => Some (NInt z)
  | JFloat f => Some (NFloat f)
  | _ => None
  end.

(** An integer against a float, compared exactly. *)
Definition Z_eq_float (z : Z) (f : spec_float) : bool :=
  match f with
  | S754_zero _ => Z.eqb z 0
  | S754_finite s m e =>
      let v := if s then Z.neg m else Z.pos m in
      if Z.leb 0 e then Z.eqb z (v * 2 ^ e) else Z.eqb (z * 2 ^ (- e)) v
  | _ => false
  end.

Definition num_eqb (x y : number) : bool :=
  match x, y with
  | NInt a, NInt b => Z.eqb a b
  | NInt a, NFloat f => Z_eq_float a f
  | NFloat f, NInt a => Z_eq_float a f
  | NFloat f, NFloat g => SFeqb f g
  end.

(** [a == b].  The values of one parsed document are distinct objects, so
    the identity shortcut of list comparison never decides differently. *)
Fixpoint py_eq (a b : json) : bool :=
  match a, b with
  | JNull, JNull => true
  | JStr s, JStr t => String.eqb s t
  | JList l, JList m =>
      (fix all2 (l m : list json) : bool :=
         match l, m with
         | [], [] => true
         | x :: l', y :: m' => py_eq x y && all2 l' m'
         | _, _ => false
         end) l m
  | JDict d, JDict e =>
      Nat.eqb (length d) (length e) &&
      (fix allk (d : list (string * json)) : bool :=
         match d with
         | [] => true
         | (k, v) :: d' =>
             match dict_lookup k e with
             | Some w => py_eq v w
             | None => false
             end && allk d'
         end) d
  | _, _ =>
      match as_number a, as_number b with
      | Some x, Some y => num_eqb x y
      | _, _ => false
      end
  end.

(** *** Membership *)

(** [t in s] on two strings: [t] occurs in [s]. *)
Fixpoint occurs_in (t s : string) : bool :=
  String.prefix t s ||
  match s with
  | EmptyString => false
  | String _ s' => occurs_in t s'
  end.

(** [x in c] *)
Definition py_in (x c : json) : result bool :=
  match c with
  | JStr s => match x with
              | JStr t => Ok (occurs_in t s)
              | _ => Raise TypeError
              end
  | JList l => Ok (existsb (py_eq x) l)
  | JDict d => match x with
               | JList _ | JDict _ => Raise TypeError
               | JStr t => Ok (bool_decide (is_Some (dict_lookup t d)))
               | _ => Ok false
               end
  | _ => Raise TypeError
  end.

(** ** The runtime

    The library functions the script calls but does not define: the command
    line parser that [get_args] configures, the JSON parser, and [str] on
    the values whose text depends on the interpreter. *)
Record Namespace := {
  file : option string;
  filter : option string;
  exclude : option string
}.

Class Runtime := {
  (** [parser.parse_args()] on [sys.argv]: what it prints on standard
      output, and the namespace or the [SystemExit] it ends with *)
  parse_args : list string -> list string * result Namespace;
  (** the text of [parser.print_help()] *)
  help_text : string;
  (** [json.load] on the text of a file; [None] when it raises *)
  json_loads : string -> option json;
  (** [str] of a float, a list or a dict *)
  repr : json -> string
}.

Definition newline : string := String (ascii_of_nat 10) EmptyString.

Section Convert.
Context {rt : Runtime}.

(** [str(v)], what an f-string puts in place of [{v}] *)
Definition py_str (v : json) : string :=
  match v with
  | JNull => "None"
  | JBool true => "True"
  | JBool false => "False"
  | JInt z => pretty z
  | JStr s => s
  | _ => repr v
  end.

(** ** [folder_name_to_id] *)

(** The loop of [folder_name_to_id]; falling off its end returns [None]. *)
Fixpoint find_folder (folders : list json) (name : string) : result json :=
  match folders with
  | [] => Ok JNull
  | f :: rest =>
      n ← getitem f "name";
      if py_eq n (JStr name) then getitem f "id" else find_folder rest name
  end.

Definition folder_name_to_id (js : json) (name : string) : result json :=
  fs ← getitem js "folders";
  l ← py_iter fs;
  find_folder l name.

(** ** The conversion loop

    Inside [with open(...) as csv] every record is both printed and written
    to [csv], so the block is a computation that emits lines and ends
    normally or with an exception; the lines emitted before an exception
    stay emitted. *)
Definition emit (A : Type) : Type := list string * result A.

Definition emit_ret {A} (a : A) : emit A := ([], Ok a).

Definition emit_bind {A B} (m : emit A) (f : A -> emit B) : emit B :=
  match m with
  | (out, Ok a) => let '(out', r) := f a in ((out ++ out')%list, r)
  | (out, Raise e) => (out, Raise e)
  end.

Definition lift {A} (r : result A) : emit A := ([], r).

(** [print(item); csv.write(f"{item}\n")] *)
Definition write_record (item : string) : emit unit := ([item], Ok tt).

Fixpoint for_each {A} (l : list A) (body : A -> emit unit) : emit unit :=
  match l with
  | [] => emit_ret tt
  | x :: l' => emit_bind (body x) (fun _ => for_each l' body)
  end.

#[local] Instance emit_mret : MRet emit := @emit_ret.
#[local] Instance emit_mbind : MBind emit := fun _ _ f m => emit_bind m f.

(** The exclusion test of lines 68 to 70: [continue] is taken when it
    holds. *)
Definition excluded (exclude i : json) : result bool :=
  folderid ← dict_get i "folderId";
  if truthy folderid && truthy exclude
  then py_in folderid exclude
  else Ok false.

(** The inclusion test of lines 84 and 85; without a filter (line 88) the
    record is written. *)
Definition include_test (folder_id i : json) : result bool :=
  if truthy folder_id
  then fid ← getitem i "folderId"; py_in folder_id fid
  else Ok true.

(** [f"{uri['uri']},{username},{password}"], given the three values *)
Definition record_text (u username password : json) : string :=
  py_str u +:+ "," +:+ py_str username +:+ "," +:+ py_str password.

(** The body of [for uri in login['uris']], lines 83 to 90. *)
Definition uri_body (folder_id i username password uri : json) : emit unit :=
  u ← lift (getitem uri "uri");
  keep ← lift (include_test folder_id i);
  if (keep : bool)
  then write_record (record_text u username password)
  else emit_ret tt.

(** The body of [for i in js['items']], lines 68 to 90; [continue] ends
    the body normally. *)
Definition item_body (folder_id exclude i : json) : emit unit :=
  skip ← lift (excluded exclude i);
  if (skip : bool) then emit_ret tt else
  login ← lift (dict_get i "login");
  match login with
  | JNull => emit_ret tt
  | _ =>
      username ← lift (getitem login "username");
      password ← lift (getitem login "password");
      uris ← lift (getitem login "uris" ≫= py_iter);
      for_each uris (uri_body folder_id i username password)
  end.

(** The block under [with open(...) as csv], lines 67 to 90. *)
Definition convert_items (folder_id exclude js : json) : emit unit :=
  items ← lift (getitem js "items" ≫= py_iter);
  for_each items (item_body folder_id exclude).

(** ** The program

    The world of a run: the text files by path and the lines printed on
    standard output.  Every path can be opened for writing. *)
Record world := World {
  files : gmap string string;
  stdout : list string
}.

Definition io (A : Type) : Type := world -> result A * world.

Definition io_ret {A} (a : A) : io A := fun w => (Ok a, w).

Definition io_bind {A B} (m : io A) (f : A -> io B) : io B := fun w =>
  match m w with
  | (Ok a, w') => f a w'
  | (Raise e, w') => (Raise e, w')
  end.

#[local] Instance io_mret : MRet io := @io_ret.
#[local] Instance io_mbind : MBind io := fun _ _ f m => io_bind m f.

Definition io_lift {A} (r : result A) : io A := fun w => (r, w).

Definition print (lines : list string) : io unit := fun w =>
  (Ok tt, World (files w) (stdout w ++ lines)).

(** [load_json] *)
Definition load_json (path : string) : io json := fun w =>
  match files w !! path with
  | None => (Raise FileNotFoundError, w)
  | Some text =>
      match json_loads text with
      | Some js => (Ok js, w)
      | None => (Raise JSONDecodeError, w)
      end
  end.

(** [get_args], on [sys.argv] *)
Definition get_args (argv : list string) : io Namespace :=
  if (length argv <? 2)%nat
  then print [help_text];; io_lift (Raise (SystemExit (Some 1%Z)))
  else print (parse_args argv).1;; io_lift (parse_args argv).2.

(** The text a file holds after the given records were written to it. *)
Definition csv_text (records : list string) : string :=
  foldr (fun item rest => item +:+ newline +:+ rest) "" records.

(** [with open(path, 'w') as csv: body]: the file is created or emptied,
    takes the records of [body] as they are emitted, and is closed however
    [body] ends. *)
Definition with_csv {A} (path : string) (body : emit A) : io A := fun w =>
  (body.2, World (<[path := csv_text body.1]> (files w)) (stdout w ++ body.1)).

(** Truthiness of an option of the command line, [None] when not given. *)
Definition given (o : option string) : bool :=
  match o with
  | Some s => truthy (JStr s)
  | None => false
  end.

(** [folder_id = None; if name: folder_id = folder_name_to_id(js, name)] *)
Definition resolve (js : json) (name : option string) : result json :=
  if given name then folder_name_to_id js (default "" name) else Ok JNull.

(** [main] from line 52 on, with the parsed arguments *)
Definition convert (args : Namespace) : io unit :=
  if negb (given (file args)) then
    print ["Error: Need a json file from Bitwarden"];;
    io_lift (Raise (SystemExit None))
  else
    let path := default "" (file args) in
    js ← load_json path;
    folder_id ← io_lift (resolve js (filter args));
    excl ← io_lift (resolve js (exclude args));
    with_csv (path +:+ ".csv") (convert_items folder_id excl js).

Definition main (argv : list string) : io unit :=
  print ["Bitwarden to Mooltipass"];;
  args ← get_args argv;
  convert args.

End Convert.

(** ** What the claims speak of *)

Definition is_null (v : json) : bool :=
  match v with
  | JNull => true
  | _ => false
  end.

(** The [login] entry of an item, [None] when it has none. *)
Definition login_field (i : json) : option json :=
  match i with
  | JDict d => dict_lookup "login" d
  | _ => None
  end.

(** An item is included when the exclusion test of line 69 fails, it has
    login data (line 75) and the inclusion test of line 84 holds. *)
Definition included (folder_id exclude i : json) : bool :=
  match excluded exclude i, dict_get i "login", include_test folder_id i with
  | Ok false, Ok login, Ok true => negb (is_null login)
  | _, _, _ => false
  end.

(** The entries of [login['uris']] of an item. *)
Definition uris_of (i : json) : result (list json) :=
  login ← dict_get i "login";
  getitem login "uris" ≫= py_iter.

Definition uri_count (i : json) : nat :=
  match uris_of i with
  | Ok l => length l
  | Raise _ => 0%nat
  end.

(** The sum, over the included items, of their numbers of URIs. *)
Definition expected_records (folder_id exclude : json) (items : list json) : nat :=
  sum_list (map (fun i => if included folder_id exclude i
                          then uri_count i else 0%nat) items).

Definition items_of (js : json) : list json :=
  match getitem js "items" ≫= py_iter with
  | Ok l => l
  | Raise _ => []
  end.

(** The records a conversion emits, whether it completes or not. *)
Definition emitted {rt : Runtime} (folder_id exclude js : json) : list string :=
  (convert_items folder_id exclude js).1.

(** [i] is an item with login data all of whose fields can be read: user
    name [un], password [pw] and the values [vs] of its URI entries. *)
Definition reads_login (i un pw : json) (vs : list json) : Prop :=
  exists login us,
    dict_get i "login" = Ok login /\ is_null login = false /\
    getitem login "username" = Ok un /\
    getitem login "password" = Ok pw /\
    getitem login "uris" = Ok (JList us) /\
    Forall2 (fun u v => getitem u "uri" = Ok v) us vs.

(** A folder that has a name, other than [name]. *)
Definition named_otherwise (name : string) (f : json) : Prop :=
  exists n, getitem f "name" = Ok (JStr n) /\ n <> name.

(** What the inclusion test raises on an item without a usable
    [folderId]: [KeyError] when the entry is absent, [TypeError] when it is
    null. *)
Definition missing_folder_error (i : json) : exn :=
  match getitem i "folderId" with
  | Ok _ => TypeError
  | Raise e => e
  end.

(** The exceptions that field access, iteration and [in] raise. *)
Definition is_fault (e : exn) : Prop :=
  match e with
  | KeyError _ | TypeError | AttributeError => True
  | _ => False
  end.

(** ** Sample data *)

(** A runtime whose command line parses to [args] and whose input file
    parses to [js]. *)
Definition sample_runtime (args : Namespace) (js : json) : Runtime := {|
  parse_args := fun _ => ([], Ok args);
  help_text := "usage: convert.py [-h] [-f FILE] [--filter FILTER] [-e EXCLUDE]";
  json_loads := fun _ => Some js;
  repr := fun _ => ""
|}.

Definition sample_login : json :=
  JDict [("username", JStr "u"); ("password", JStr "p");
         ("uris", JList [JDict [("uri", JStr "https://a.example")]])].

Definition item_in (fid : json) : json :=
  JDict [("folderId", fid); ("login", sample_login)].

Definition item_without_folder : json := JDict [("login", sample_login)].

Definition document (folders items : list json) : json :=
  JDict [("folders", JList folders); ("items", JList items)].

Definition folder (id name : string) : json :=
  JDict [("id", JStr id); ("name", JStr name)].

(** The document of the worked example: one folder, one item in it. *)
Definition work_doc : json :=
  document [folder "1" "Work"] [item_in (JStr "1")].

Definition sample_world : world :=
  World {["export.json" := "(text of the export)"]} [].

(** An item whose login data has no [username] entry. *)
Definition item_without_username : json :=
  JDict [("login",
          JDict [("password", JStr "p");
                 ("uris", JList [JDict [("uri", JStr "https://a.example")]])])].

(** An item whose login data has no [uris] entry. *)
Definition item_without_uris : json :=
  JDict [("login", JDict [("username", JStr "u"); ("password", JStr "p")])].

(** An item whose user name is null. *)
Definition item_null_username : json :=
  JDict [("login",
          JDict [("username", JNull); ("password", JStr "p");
                 ("uris", JList [JDict [("uri", JStr "https://a.example")]])])].

(** A note: an item without login data. *)
Definition note_item : json :=
  JDict [("folderId", JStr "1"); ("login", JNull)].

(** A document whose only folder has the empty string as its id. *)
Definition blank_id_doc : json :=
  document [folder "" "Work"] [item_in (JStr "")].

(** The same folder, and an item that has no [folderId] entry. *)
Definition blank_id_loose_doc : json :=
  document [folder "" "Work"] [item_without_folder].

Definition only_work : Namespace :=
  {| file := Some "export.json"; filter := Some "Work"; exclude := None |}.

(** A document whose only item has no [username] entry. *)
Definition nameless_doc : json := document [] [item_without_username].

Definition only_file : Namespace :=
  {| file := Some "export.json"; filter := None; exclude := None |}.

Definition only_nope : Namespace :=
  {| file := Some "export.json"; filter := Some "Nope"; exclude := None |}.

Definition no_file : Namespace :=
  {| file := None; filter := Some "Work"; exclude := None |}.

Definition work_in_and_out : Namespace :=
  {| file := Some "export.json"; filter := Some "Work";
     exclude := Some "Work" |}.

(** Three folders, two of them with the same name. *)
Definition twin_doc : json :=
  document [folder "1" "Work"; folder "2" "Home"; folder "3" "Home"] [].

Definition no_args : Namespace :=
  {| file := None; filter := None; exclude := None |}.

(** ** Further vocabulary *)

(** The path of the output file, [f"{args.file}.csv"]. *)
Definition output_path (args : Namespace) : string :=
  default "" (file args) +:+ ".csv".

(** The number of line ends in a text. *)
Fixpoint count_newlines (s : string) : nat :=
  match s with
  | EmptyString => 0%nat
  | String c s' =>
      ((if Ascii.eqb c (ascii_of_nat 10) then 1 else 0) + count_newlines s')%nat
  end.

(** An item with the given folder, user name, password and URIs. *)
Definition credential (fid : json) (un pw : string) (uris : list string) : json :=
  JDict [("folderId", fid);
         ("login",
          JDict [("username", JStr un); ("password", JStr pw);
                 ("uris", JList (map (fun u => JDict [("uri", JStr u)]) uris))])].

(** A document with two folders whose ids contain one another, and an
    item in each. *)
Definition nested_ids_doc : json :=
  document [folder "1" "Work"; folder "12" "Home"]
    [credential (JStr "1") "a" "x" ["https://w.example"];
     credential (JStr "12") "b" "y" ["https://h.example"; "https://g.example"]].

(** A document without a [folders] entry. *)
Definition folderless_doc : json :=
  JDict [("items", JList [credential JNull "a" "x" ["https://w.example"]])].

(** A document without an [items] entry. *)
Definition itemless_doc : json := JDict [("folders", JList [])].

(** A folder list whose first folder has no [name] entry. *)
Definition unnamed_folder_doc : json :=
  document [JDict [("id", JStr "1")]; folder "2" "Home"] [].

Definition only_home_out : Namespace :=
  {| file := Some "export.json"; filter := None; exclude := Some "Home" |}.

Definition nope_out : Namespace :=
  {| file := Some "export.json"; filter := None; exclude := Some "Nope" |}.

(** A world in which the output file already has a content. *)
Definition used_world : world :=
  World {["export.json" := "(text of the export)";
          "export.json.csv" := "old"; "notes.txt" := "keep"]} ["earlier"].

(** A runtime whose argument parser rejects the command line: it prints
    nothing on standard output and exits with status 2. *)
Definition rejecting_runtime : Runtime := {|
  parse_args := fun _ => ([], Raise (SystemExit (Some 2%Z)));
  help_text := "usage: convert.py [-h] [-f FILE] [--filter FILTER] [-e EXCLUDE]";
  json_loads := fun _ => None;
  repr := fun _ => ""
|}.

Definition work_from_folderless : Namespace :=
  {| file := Some "export.json"; filter := Some "Work"; exclude := None |}.

(** What an item writes when no include id is set: nothing when the
    exclusion test holds or it has no login data, all its records, one per
    URI entry and in their order, when its login data can be read. *)
Definition unfiltered_records {rt : Runtime}
    (exclude i : json) (recs : list string) : Prop :=
  (excluded exclude i = Ok true /\ recs = []) \/
  (excluded exclude i = Ok false /\ dict_get i "login" = Ok JNull /\
   recs = []) \/
  (excluded exclude i = Ok false /\
   exists un pw vs,
     reads_login i un pw vs /\ recs = map (fun v => record_text v un pw) vs).

(** A document whose second item has no [username] entry, between two
    items that can be read. *)
Definition broken_middle_doc : json :=
  document []
    [credential (JStr "1") "a" "x" ["https://w.example"];
     item_without_username;
     credential (JStr "12") "b" "y" ["https://h.example"]].

(** ** The emitting loop *)

Section EmitFacts.
Context {rt : Runtime}.

Lemma emit_bind_lift_ok {A B} (a : A) (f : A -> emit B) :
  emit_bind (lift (Ok a)) f = f a.
Proof. unfold emit_bind, lift. now destruct (f a). Qed.

Lemma emit_bind_ok_inv {A B} (m : emit A) (f : A -> emit B) out b :
  emit_bind m f = (out, Ok b) ->
  exists out1 a out2,
    m = (out1, Ok a) /\ f a = (out2, Ok b) /\ out = (out1 ++ out2)%list.
Proof.
  destruct m as [out1 [a|e]]; simpl; [|discriminate].
  destruct (f a) as [out2 r] eqn:E. intros [= <- ->]. eauto 6.
Qed.

Lemma lift_ok_inv {A} (r : result A) out a :
  lift r = (out, Ok a) -> r = Ok a /\ out = [].
Proof. unfold lift. now intros [= <- ->]. Qed.

(** The inner loop: when it completes, the inclusion test had one outcome
    for all the URIs of the item. *)
Lemma uri_loop_ok folder_id i username password uris out :
  for_each uris (uri_body folder_id i username password) = (out, Ok tt) ->
  (uris = [] /\ out = []) \/
  exists keep, include_test folder_id i = Ok keep /\
               length out = if keep then length uris else 0%nat.
Proof.
  revert out. induction uris as [|u uris IH]; intros out; simpl.
  - intros [= <-]. now left.
  - intros H. right.
    apply emit_bind_ok_inv in H as (out1 & [] & out2 & Hu & Hrest & ->).
    unfold uri_body, mbind, emit_mbind in Hu.
    apply emit_bind_ok_inv in Hu as (o1 & v & o2 & Hv & Hu & ->).
    apply lift_ok_inv in Hv as [Hv ->].
    apply emit_bind_ok_inv in Hu as (o3 & keep & o4 & Hk & Hu & ->).
    apply lift_ok_inv in Hk as [Hk ->].
    exists keep. split; [exact Hk|].
    apply IH in Hrest as [[-> ->]|(keep' & Hk' & Hlen)].
    + destruct keep; injection Hu as <-; reflexivity.
    + rewrite Hk in Hk'. injection Hk' as <-.
      rewrite !length_app, Hlen.
      destruct keep; injection Hu as <-; simpl; lia.
Qed.

(** An item that is processed to its end wrote one record per URI when it
    is included, and none otherwise. *)
Lemma item_body_ok folder_id exclude i out :
  item_body folder_id exclude i = (out, Ok tt) ->
  length out = if included folder_id exclude i then uri_count i else 0%nat.
Proof.
  unfold item_body, mbind, emit_mbind. intros H.
  apply emit_bind_ok_inv in H as (o1 & skip & o2 & Hs & H & ->).
  apply lift_ok_inv in Hs as [Hs ->].
  unfold included. rewrite Hs.
  destruct skip; [injection H as <-; reflexivity|].
  apply emit_bind_ok_inv in H as (o3 & login & o4 & Hl & H & ->).
  apply lift_ok_inv in Hl as [Hl ->]. rewrite Hl.
  assert (Hcount :
    emit_bind (lift (getitem login "username")) (fun username =>
    emit_bind (lift (getitem login "password")) (fun password =>
    emit_bind (lift (getitem login "uris" ≫= py_iter)) (fun uris =>
    for_each uris (uri_body folder_id i username password)))) = (o4, Ok tt) ->
    length o4 = match include_test folder_id i with
                | Ok true => uri_count i
                | _ => 0%nat
                end).
  { intros H'.
    apply emit_bind_ok_inv in H' as (p1 & un & p2 & Hun & H' & ->).
    apply lift_ok_inv in Hun as [Hun ->].
    apply emit_bind_ok_inv in H' as (p3 & pw & p4 & Hpw & H' & ->).
    apply lift_ok_inv in Hpw as [Hpw ->].
    apply emit_bind_ok_inv in H' as (p5 & uris & p6 & Huris & H' & ->).
    apply lift_ok_inv in Huris as [Huris ->].
    unfold uri_count, uris_of. rewrite Hl. simpl. rewrite Huris.
    apply uri_loop_ok in H' as [[-> ->]|(keep & -> & Hlen)].
    - now destruct (include_test folder_id i) as [[]|].
    - simpl. now destruct keep. }
  destruct login; simpl in *;
    try (rewrite (Hcount H);
         now destruct (include_test folder_id i) as [[]|]).
  injection H as <-. now destruct (include_test folder_id i) as [[]|].
Qed.

Lemma for_each_ok_length {A} (body : A -> emit unit) (count : A -> nat) l out :
  (forall x o, body x = (o, Ok tt) -> length o = count x) ->
  for_each l body = (out, Ok tt) ->
  length out = sum_list (map count l).
Proof.
  intros Hbody. revert out. induction l as [|x l IH]; intros out; simpl.
  - now intros [= <-].
  - intros H. apply emit_bind_ok_inv in H as (o1 & [] & o2 & Hx & Hl & ->).
    rewrite length_app, (Hbody _ _ Hx), (IH _ Hl). reflexivity.
Qed.

(** A loop whose body raises at one of the elements raises. *)
Lemma for_each_raises {A} (body : A -> emit unit) l x e :
  x ∈ l -> (body x).2 = Raise e ->
  exists e', (for_each l body).2 = Raise e'.
Proof.
  intros Hin Hx. induction l as [|y l IH]; [now apply elem_of_nil in Hin|].
  simpl. destruct (body y) as [o [[]|e1]] eqn:Hy; simpl; [|eauto].
  apply elem_of_cons in Hin as [->|Hin].
  - rewrite Hy in Hx. discriminate.
  - destruct (IH Hin) as [e' He']. exists e'.
    destruct (for_each l body). simpl in *. exact He'.
Qed.

(** Whatever way a loop ends, its records are those of the elements it
    went through, in order: each element contributes its own records. *)
Lemma for_each_records {A} (body : A -> emit unit) l :
  exists n, (for_each l body).1 = concat (map (fun x => (body x).1) (take n l)).
Proof.
  induction l as [|x l [n IH]]; [now exists 0%nat|].
  cbn [for_each]. destruct (body x) as [o [[]|e]] eqn:Hx.
  - exists (S n). cbn [take map concat]. rewrite Hx. cbn [emit_bind fst].
    destruct (for_each l body) as [o' r]. cbn [fst] in *. now rewrite IH.
  - exists 1%nat. cbn [take map concat]. rewrite Hx. cbn.
    now rewrite app_nil_r.
Qed.

(** The records of a loop are those of its elements, in order. *)
Lemma for_each_all_ok {A} (body : A -> emit unit) (recs : A -> list string) l :
  (forall x, x ∈ l -> body x = (recs x, Ok tt)) ->
  for_each l body = (concat (map recs l), Ok tt).
Proof.
  induction l as [|x l IH]; intros Hall; [reflexivity|].
  simpl. rewrite (Hall x (list_elem_of_here _ _)). simpl.
  rewrite IH; [reflexivity|].
  intros y Hy. apply Hall. now apply list_elem_of_further.
Qed.

End EmitFacts.

(** ** Errors of the loop are uncaught exceptions, never [SystemExit] *)

Section Faults.
Context {rt : Runtime}.

Lemma getitem_fault v k e : getitem v k = Raise e -> is_fault e.
Proof.
  destruct v; simpl; try (intros [= <-]; exact I).
  destruct (dict_lookup k d); [discriminate|]. intros [= <-]. exact I.
Qed.

Lemma dict_get_fault v k e : dict_get v k = Raise e -> is_fault e.
Proof. destruct v; simpl; try discriminate; intros [= <-]; exact I. Qed.

Lemma py_iter_fault v e : py_iter v = Raise e -> is_fault e.
Proof. destruct v; simpl; try discriminate; intros [= <-]; exact I. Qed.

Lemma py_in_fault x c e : py_in x c = Raise e -> is_fault e.
Proof.
  destruct c; simpl; try (intros [= <-]; exact I);
    destruct x; simpl; try discriminate; intros [= <-]; exact I.
Qed.

Lemma result_bind_fault {A B} (m : result A) (f : A -> result B) :
  (forall e, m = Raise e -> is_fault e) ->
  (forall a e, f a = Raise e -> is_fault e) ->
  forall e, m ≫= f = Raise e -> is_fault e.
Proof.
  intros Hm Hf e. destruct m as [a|e1]; simpl.
  - apply Hf.
  - intros [= <-]. now apply Hm.
Qed.

Lemma excluded_fault exclude i e : excluded exclude i = Raise e -> is_fault e.
Proof.
  revert e. unfold excluded. apply result_bind_fault.
  - apply dict_get_fault.
  - intros a e'. destruct (truthy a && truthy exclude); [|discriminate].
    apply py_in_fault.
Qed.

Lemma include_test_fault folder_id i e :
  include_test folder_id i = Raise e -> is_fault e.
Proof.
  revert e. unfold include_test. destruct (truthy folder_id); [|discriminate].
  apply result_bind_fault.
  - apply getitem_fault.
  - intros a. apply py_in_fault.
Qed.

Lemma emit_bind_fault {A B} (m : emit A) (f : A -> emit B) :
  (forall e, m.2 = Raise e -> is_fault e) ->
  (forall a e, (f a).2 = Raise e -> is_fault e) ->
  forall e, (emit_bind m f).2 = Raise e -> is_fault e.
Proof.
  intros Hm Hf e. destruct m as [o [a|e1]]; simpl.
  - specialize (Hf a e). destruct (f a). exact Hf.
  - intros [= <-]. now apply Hm.
Qed.

Lemma for_each_fault {A} (body : A -> emit unit) l :
  (forall x e, (body x).2 = Raise e -> is_fault e) ->
  forall e, (for_each l body).2 = Raise e -> is_fault e.
Proof.
  intros Hbody. induction l as [|x l IH]; simpl; [discriminate|].
  apply emit_bind_fault; [apply Hbody|]. intros _. exact IH.
Qed.

Lemma uri_body_fault folder_id i un pw uri e :
  (uri_body folder_id i un pw uri).2 = Raise e -> is_fault e.
Proof.
  revert e. unfold uri_body, mbind, emit_mbind.
  apply emit_bind_fault; [apply getitem_fault|]. intros u.
  apply emit_bind_fault; [apply include_test_fault|].
  intros []; discriminate.
Qed.

Lemma item_body_fault folder_id exclude i e :
  (item_body folder_id exclude i).2 = Raise e -> is_fault e.
Proof.
  revert e. unfold item_body, mbind, emit_mbind.
  apply emit_bind_fault; [apply excluded_fault|].
  intros []; [discriminate|].
  apply emit_bind_fault; [apply dict_get_fault|]. intros login.
  assert (Hrest : forall e',
    (emit_bind (lift (getitem login "username")) (fun username =>
     emit_bind (lift (getitem login "password")) (fun password =>
     emit_bind (lift (getitem login "uris" ≫= py_iter)) (fun uris =>
     for_each uris (uri_body folder_id i username password))))).2 = Raise e' ->
    is_fault e').
  { apply emit_bind_fault; [apply getitem_fault|]. intros un.
    apply emit_bind_fault; [apply getitem_fault|]. intros pw.
    apply emit_bind_fault.
    - apply result_bind_fault;
        [apply getitem_fault|intros a; apply py_iter_fault].
    - intros uris. apply for_each_fault. intros x.
      apply uri_body_fault. }
  destruct login; try exact Hrest. discriminate.
Qed.

Lemma convert_items_fault folder_id exclude js e :
  (convert_items folder_id exclude js).2 = Raise e -> is_fault e.
Proof.
  revert e. unfold convert_items, mbind, emit_mbind.
  apply emit_bind_fault.
  - apply result_bind_fault;
      [apply getitem_fault|intros a; apply py_iter_fault].
  - intros items. apply for_each_fault. intros x.
    apply item_body_fault.
Qed.

Lemma fault_exit_status {A} e : is_fault e -> exit_status (@Raise A e) = 1%Z.
Proof. now destruct e. Qed.

End Faults.

(** ** The records of one item *)

Section ItemFacts.
Context {rt : Runtime}.

Lemma uri_loop_records folder_id i un pw us vs keep :
  Forall2 (fun u v => getitem u "uri" = Ok v) us vs ->
  include_test folder_id i = Ok keep ->
  for_each us (uri_body folder_id i un pw)
  = (if keep then map (fun v => record_text v un pw) vs else [], Ok tt).
Proof.
  intros Hvs Hk. induction Hvs as [|u v us vs Hu _ IH]; simpl.
  - now destruct keep.
  - unfold uri_body at 1, mbind, emit_mbind.
    rewrite Hu, emit_bind_lift_ok, Hk, emit_bind_lift_ok, IH.
    now destruct keep.
Qed.

(** The records of an item whose fields can all be read. *)
Lemma item_body_records folder_id exclude i un pw vs keep :
  excluded exclude i = Ok false ->
  reads_login i un pw vs ->
  include_test folder_id i = Ok keep ->
  item_body folder_id exclude i
  = (if keep then map (fun v => record_text v un pw) vs else [], Ok tt).
Proof.
  intros Hex (login & us & Hl & Hnn & Hun & Hpw & Hus & Hvs) Hk.
  unfold item_body, mbind, emit_mbind.
  rewrite Hex, emit_bind_lift_ok, Hl, emit_bind_lift_ok.
  destruct login; try discriminate Hnn;
    rewrite Hun, emit_bind_lift_ok, Hpw, emit_bind_lift_ok, Hus;
    cbn [result_mbind py_iter];
    rewrite emit_bind_lift_ok; now apply uri_loop_records.
Qed.

Lemma included_reads folder_id exclude i un pw vs keep :
  excluded exclude i = Ok false ->
  reads_login i un pw vs ->
  include_test folder_id i = Ok keep ->
  included folder_id exclude i = keep.
Proof.
  intros Hex (login & us & Hl & Hnn & _) Hk.
  unfold included. rewrite Hex, Hl, Hk, Hnn. now destruct keep.
Qed.

Lemma prefix_refl s : String.prefix s s = true.
Proof.
  induction s as [|c s IH]; simpl; [reflexivity|].
  destruct (ascii_dec c c); [exact IH|congruence].
Qed.

Lemma occurs_in_refl s : occurs_in s s = true.
Proof. destruct s; [reflexivity|]. cbn [occurs_in]. now rewrite prefix_refl. Qed.

Lemma truthy_str s : s <> "" -> truthy (JStr s) = true.
Proof. intros Hs. simpl. now destruct (String.eqb_spec s ""). Qed.

(** When the loop runs to its end, the number of records it emitted is
    the sum, over the included items, of their numbers of URIs. *)
Lemma loop_record_count folder_id exclude js :
  (convert_items folder_id exclude js).2 = Ok tt ->
  length (emitted folder_id exclude js)
  = expected_records folder_id exclude (items_of js).
Proof.
  unfold emitted, items_of, convert_items, mbind, emit_mbind.
  destruct (result_mbind _ _ py_iter (getitem js "items")) as [items|e];
    [|discriminate].
  rewrite emit_bind_lift_ok.
  destruct (for_each items (item_body folder_id exclude)) as [out r] eqn:E.
  simpl. intros ->.
  apply (for_each_ok_length _ _ _ _ (item_body_ok folder_id exclude) E).
Qed.

End ItemFacts.

(** ** The run from the parsed arguments *)

Section RunFacts.
Context {rt : Runtime}.

(** The run once the input file is read. *)
Lemma convert_loaded args path text js w :
  file args = Some path -> path <> "" ->
  files w !! path = Some text -> json_loads text = Some js ->
  convert args w
  = match resolve js (filter args) with
    | Raise e => (Raise e, w)
    | Ok folder_id =>
        match resolve js (exclude args) with
        | Raise e => (Raise e, w)
        | Ok excl =>
            with_csv (path +:+ ".csv") (convert_items folder_id excl js) w
        end
    end.
Proof.
  intros Hf Hp Ht Hjs. unfold convert. rewrite Hf.
  cbn [given]. rewrite (truthy_str _ Hp). cbn [negb default from_option id].
  unfold mbind, io_mbind, io_bind, load_json, io_lift. cbn beta.
  rewrite Ht, Hjs.
  destruct (resolve js (filter args)); [|reflexivity].
  now destruct (resolve js (exclude args)).
Qed.

(** The output file holds the emitted records, one line each, and the run
    ends as the loop does. *)
Lemma output_file_holds_emitted args path text js folder_id excl w :
  file args = Some path -> path <> "" ->
  files w !! path = Some text -> json_loads text = Some js ->
  resolve js (filter args) = Ok folder_id ->
  resolve js (exclude args) = Ok excl ->
  files (convert args w).2 !! (path +:+ ".csv")
  = Some (csv_text (emitted folder_id excl js)) /\
  stdout (convert args w).2 = (stdout w ++ emitted folder_id excl js)%list /\
  (convert args w).1 = (convert_items folder_id excl js).2.
Proof.
  intros Hf Hp Ht Hjs Hfid Hex.
  rewrite (convert_loaded args path text js w Hf Hp Ht Hjs), Hfid, Hex.
  unfold with_csv, emitted. cbn [fst snd files stdout].
  now rewrite lookup_insert_eq.
Qed.

(** The run without an input file. *)
Lemma convert_without_file args w :
  given (file args) = false ->
  convert args w
  = (Raise (SystemExit None),
     World (files w) (stdout w ++ ["Error: Need a json file from Bitwarden"])).
Proof. intros Hf. unfold convert. now rewrite Hf. Qed.

(** The run when the input file cannot be loaded. *)
Lemma convert_load_failure args path w :
  file args = Some path -> path <> "" ->
  (files w !! path = None /\ convert args w = (Raise FileNotFoundError, w)) \/
  (exists text, files w !! path = Some text /\ json_loads text = None /\
                convert args w = (Raise JSONDecodeError, w)) \/
  (exists text js, files w !! path = Some text /\ json_loads text = Some js).
Proof.
  intros Hf Hp. unfold convert. rewrite Hf.
  cbn [given]. rewrite (truthy_str _ Hp). cbn [negb default from_option id].
  unfold mbind, io_mbind, io_bind, load_json. cbn beta.
  destruct (files w !! path) as [text|]; [|now left].
  right. destruct (json_loads text) as [js|] eqn:Hjs.
  - right. now exists text, js.
  - left. exists text. now rewrite Hjs.
Qed.

End RunFacts.

Section MainFacts.
Context {rt : Runtime}.

(** [main] once the command line is parsed. *)
Lemma main_parsed argv args w :
  (2 <= length argv)%nat ->
  (parse_args argv).2 = Ok args ->
  main argv w
  = convert args
      (World (files w)
         ((stdout w ++ ["Bitwarden to Mooltipass"]) ++ (parse_args argv).1)).
Proof.
  intros Hlen Hargs. unfold main, get_args.
  destruct (Nat.ltb_spec (length argv) 2) as [Hlt|_]; [lia|].
  unfold mbind, io_mbind, io_bind, print, io_lift. cbn beta iota.
  cbn [files stdout]. now rewrite Hargs.
Qed.

End MainFacts.

(** ** The worked examples of the specification *)

Example filter_work_output :
  files (convert (rt := sample_runtime only_work work_doc)
           only_work sample_world).2 !! "export.json.csv"
  = Some ("https://a.example,u,p" +:+ newline).
Proof. reflexivity. Qed.

Example exclude_work_output :
  files (convert (rt := sample_runtime only_work work_doc)
           {| file := Some "export.json"; filter := None;
              exclude := Some "Work" |} sample_world).2 !! "export.json.csv"
  = Some "".
Proof. reflexivity. Qed.

(** ** C1: the number of records *)

(** C1, as the code has it: for every document and every include and
    exclude setting on which the run completes without raising, the output
    file holds the emitted records, one line each, and their number is the
    sum, over the included items, of their numbers of URIs. *)
Theorem completed_run_record_count {rt : Runtime}
    args path text js folder_id excl w :
  file args = Some path -> path <> "" ->
  files w !! path = Some text -> json_loads text = Some js ->
  resolve js (filter args) = Ok folder_id ->
  resolve js (exclude args) = Ok excl ->
  (convert args w).1 = Ok tt ->
  files (convert args w).2 !! (path +:+ ".csv")
  = Some (csv_text (emitted folder_id excl js)) /\
  length (emitted folder_id excl js)
  = expected_records folder_id excl (items_of js).
Proof.
  intros Hf Hp Ht Hjs Hfid Hex Hok.
  destruct (output_file_holds_emitted args path text js folder_id excl w
              Hf Hp Ht Hjs Hfid Hex) as (Hfile & _ & Hend).
  split; [exact Hfile|].
  apply loop_record_count. now rewrite <- Hend.
Qed.

Lemma completed_run_record_count_witness :
  resolve work_doc (filter only_work) = Ok (JStr "1") /\
  (convert (rt := sample_runtime only_work work_doc)
     only_work sample_world).1 = Ok tt /\
  length (emitted (rt := sample_runtime only_work work_doc)
            (JStr "1") JNull work_doc) = 1%nat.
Proof.
  split; [reflexivity|]. split; [reflexivity|].
  refine (proj2 (completed_run_record_count
            (rt := sample_runtime only_work work_doc)
            only_work "export.json" "(text of the export)" work_doc
            (JStr "1") JNull sample_world
            eq_refl _ eq_refl eq_refl eq_refl eq_refl eq_refl)).
  discriminate.
Defined.

(** C1 as stated fails on a run that raises: without filter or exclusion
    the only item is included and has one URI, but its login data has no
    [username] entry, the run ends with [KeyError] and the output file is
    empty. *)
Lemma record_count_counterexample :
  (convert (rt := sample_runtime only_file nameless_doc)
     only_file sample_world).1 = Raise (KeyError "username") /\
  files (convert (rt := sample_runtime only_file nameless_doc)
           only_file sample_world).2 !! "export.json.csv" = Some "" /\
  emitted (rt := sample_runtime only_file nameless_doc)
    JNull JNull nameless_doc = [] /\
  expected_records JNull JNull (items_of nameless_doc) = 1%nat /\
  length (emitted (rt := sample_runtime only_file nameless_doc)
            JNull JNull nameless_doc)
  <> expected_records JNull JNull (items_of nameless_doc).
Proof. repeat (split; [reflexivity|]). vm_compute. discriminate. Qed.

(** ** C2: the inclusion test *)

(** C2, as the code has it: with a non-empty include id [fid], an item
    that has login data and passes the exclusion test is included exactly
    when [fid] occurs in its [folderId] ([fid in i['folderId']] on two
    strings); an equal [folderId] is one such case.  When its fields can be
    read, all its records are written in that case and none otherwise. *)
Theorem include_is_containment {rt : Runtime} fid s exclude i login :
  fid <> "" ->
  getitem i "folderId" = Ok (JStr s) ->
  excluded exclude i = Ok false ->
  dict_get i "login" = Ok login -> is_null login = false ->
  included (JStr fid) exclude i = occurs_in fid s /\
  (s = fid -> included (JStr fid) exclude i = true) /\
  (forall un pw vs, reads_login i un pw vs ->
     item_body (JStr fid) exclude i
     = (if occurs_in fid s
        then map (fun v => record_text v un pw) vs else [], Ok tt)).
Proof.
  intros Hfid Hs Hex Hl Hnn.
  assert (Hk : include_test (JStr fid) i = Ok (occurs_in fid s)).
  { unfold include_test. rewrite (truthy_str _ Hfid), Hs. reflexivity. }
  assert (Hinc : included (JStr fid) exclude i = occurs_in fid s).
  { unfold included. rewrite Hex, Hl, Hk, Hnn. now destruct (occurs_in fid s). }
  split; [exact Hinc|]. split.
  - intros ->. rewrite Hinc. apply occurs_in_refl.
  - intros un pw vs Hr. now apply item_body_records.
Qed.

Lemma include_is_containment_witness :
  "1" <> "" /\
  getitem (item_in (JStr "12")) "folderId" = Ok (JStr "12") /\
  excluded JNull (item_in (JStr "12")) = Ok false /\
  dict_get (item_in (JStr "12")) "login" = Ok sample_login /\
  is_null sample_login = false /\
  included (JStr "1") JNull (item_in (JStr "12")) = occurs_in "1" "12".
Proof.
  repeat (split; [first [reflexivity | discriminate]|]).
  refine (proj1 (include_is_containment
            (rt := sample_runtime no_args work_doc)
            "1" "12" JNull (item_in (JStr "12")) sample_login _
            eq_refl eq_refl eq_refl eq_refl)).
  discriminate.
Defined.

(** C2 as stated fails: with include id [1] the item of folder [12] is
    included, and its record is written, though [12] is not equal to
    [1]. *)
Lemma include_equality_counterexample :
  included (JStr "1") JNull (item_in (JStr "12")) = true /\
  item_body (rt := sample_runtime no_args work_doc)
    (JStr "1") JNull (item_in (JStr "12"))
  = (["https://a.example,u,p"], Ok tt) /\
  "12" <> "1".
Proof. split; [reflexivity|]. split; [reflexivity|discriminate]. Qed.

(** ** C3: reading the login data *)

(** C3, as the code has it: for an included item whose login data is an
    object, a missing [username], [password] or [uris] entry raises
    [KeyError] before any record is written; when the three entries are
    there and [uris] is a list of entries that have a [uri], extraction
    succeeds with one record per entry (none for the empty list), and a
    null user name is written as the text [None]. *)
Theorem extraction_needs_login_entries {rt : Runtime} folder_id exclude i d :
  excluded exclude i = Ok false ->
  dict_get i "login" = Ok (JDict d) ->
  include_test folder_id i = Ok true ->
  (dict_lookup "username" d = None \/ dict_lookup "password" d = None \/
   dict_lookup "uris" d = None ->
   exists k, k ∈ ["username"; "password"; "uris"] /\
             item_body folder_id exclude i = ([], Raise (KeyError k))) /\
  (forall un pw us vs,
     dict_lookup "username" d = Some un ->
     dict_lookup "password" d = Some pw ->
     dict_lookup "uris" d = Some (JList us) ->
     Forall2 (fun u v => getitem u "uri" = Ok v) us vs ->
     item_body folder_id exclude i
     = (map (fun v => record_text v un pw) vs, Ok tt)) /\
  (forall v pw,
     record_text v JNull pw = py_str v +:+ "," +:+ "None" +:+ "," +:+ py_str pw).
Proof.
  intros Hex Hl Hk. split; [|split].
  - intros Habsent. unfold item_body, mbind, emit_mbind.
    rewrite Hex, emit_bind_lift_ok, Hl, emit_bind_lift_ok.
    cbn [getitem].
    destruct (dict_lookup "username" d) as [un|] eqn:Hun.
    2:{ exists "username". split; [repeat constructor|reflexivity]. }
    rewrite emit_bind_lift_ok.
    destruct (dict_lookup "password" d) as [pw|] eqn:Hpw.
    2:{ exists "password". split; [repeat constructor|reflexivity]. }
    rewrite emit_bind_lift_ok.
    destruct (dict_lookup "uris" d) as [us|] eqn:Hus.
    + destruct Habsent as [?|[?|?]]; discriminate.
    + exists "uris". split; [repeat constructor|reflexivity].
  - intros un pw us vs Hun Hpw Hus Hvs.
    apply (item_body_records folder_id exclude i un pw vs true Hex); [|exact Hk].
    exists (JDict d), us. cbn [getitem]. rewrite Hun, Hpw, Hus.
    split_and!; auto.
  - reflexivity.
Qed.

Lemma extraction_needs_login_entries_witness :
  excluded JNull item_null_username = Ok false /\
  include_test JNull item_null_username = Ok true /\
  item_body (rt := sample_runtime no_args work_doc)
    JNull JNull item_null_username
  = (["https://a.example,None,p"], Ok tt).
Proof.
  split; [reflexivity|]. split; [reflexivity|].
  refine (proj1 (proj2 (extraction_needs_login_entries
            (rt := sample_runtime no_args work_doc)
            JNull JNull item_null_username _ eq_refl eq_refl eq_refl))
            JNull (JStr "p") [JDict [("uri", JStr "https://a.example")]]
            [JStr "https://a.example"] eq_refl eq_refl eq_refl _).
  repeat constructor.
Defined.

(** C3 as stated fails: both items are included, the first has no
    [username] entry and the second no [uris] entry, and extraction raises
    [KeyError] on each. *)
Lemma extraction_total_counterexample :
  included JNull JNull item_without_username = true /\
  item_body (rt := sample_runtime no_args work_doc)
    JNull JNull item_without_username = ([], Raise (KeyError "username")) /\
  included JNull JNull item_without_uris = true /\
  item_body (rt := sample_runtime no_args work_doc)
    JNull JNull item_without_uris = ([], Raise (KeyError "uris")).
Proof. repeat split. Qed.

(** ** C4: a filter name that matches no folder *)

Section Unfiltered.
Context {rt : Runtime}.

Lemma for_each_Forall2 {A} (body : A -> emit unit) l recss :
  Forall2 (fun x recs => body x = (recs, Ok tt)) l recss ->
  for_each l body = (concat recss, Ok tt).
Proof.
  induction 1 as [|x recs l recss Hx _ IH]; [reflexivity|].
  cbn [for_each]. rewrite Hx. cbn [emit_bind]. rewrite IH. reflexivity.
Qed.

Lemma item_body_unfiltered exclude i recs :
  unfiltered_records exclude i recs ->
  item_body JNull exclude i = (recs, Ok tt).
Proof.
  intros [[Hex ->]|[(Hex & Hl & ->)|(Hex & un & pw & vs & Hr & ->)]].
  - unfold item_body, mbind, emit_mbind. now rewrite Hex, emit_bind_lift_ok.
  - unfold item_body, mbind, emit_mbind.
    now rewrite Hex, emit_bind_lift_ok, Hl, emit_bind_lift_ok.
  - now apply (item_body_records JNull exclude i un pw vs true Hex Hr).
Qed.

(** With an unresolved filter name the include id is [None]. *)
Lemma resolve_unresolved js name :
  folder_name_to_id js name = Ok JNull -> resolve js (Some name) = Ok JNull.
Proof.
  intros Hname. unfold resolve. cbn [default from_option id given].
  destruct (truthy (JStr name)); [exact Hname|reflexivity].
Qed.

Lemma unresolved_filter_run path name excl text js w :
  files w !! path = Some text ->
  json_loads text = Some js ->
  folder_name_to_id js name = Ok JNull ->
  convert {| file := Some path; filter := Some name; exclude := excl |} w
  = convert {| file := Some path; filter := None; exclude := excl |} w.
Proof.
  intros Ht Hjs Hname. unfold convert. cbn [file filter exclude].
  destruct (negb (given (Some path))); [reflexivity|].
  unfold mbind, io_mbind, io_bind, load_json. cbn beta.
  cbn [default from_option id]. rewrite Ht, Hjs.
  now rewrite (resolve_unresolved js name Hname).
Qed.

End Unfiltered.

(** C4, as the code has it: when the name given to [--filter] matches no
    folder, resolution returns [None] and the filter is not applied.  The
    run is the run without [--filter]; its output file holds the records of
    the conversion with no include id, and it ends as that conversion does.
    When every item of the document can be processed (the exclusion test
    holds for it, or it has no login data, or its login data can be read),
    the run completes and writes and prints, item by item in the order of
    the document, all the records of every item that has login data and
    passes the exclusion test, and nothing else. *)
Theorem unresolved_filter_is_no_filter {rt : Runtime} path name excl text js w :
  files w !! path = Some text ->
  json_loads text = Some js ->
  folder_name_to_id js name = Ok JNull ->
  convert {| file := Some path; filter := Some name; exclude := excl |} w
  = convert {| file := Some path; filter := None; exclude := excl |} w /\
  (forall ex,
     path <> "" -> resolve js excl = Ok ex ->
     (convert {| file := Some path; filter := Some name; exclude := excl |}
        w).1 = (convert_items JNull ex js).2 /\
     files (convert {| file := Some path; filter := Some name;
                       exclude := excl |} w).2 !! (path +:+ ".csv")
     = Some (csv_text (emitted JNull ex js)) /\
     (forall i, include_test JNull i = Ok true) /\
     (forall items recss,
        getitem js "items" = Ok (JList items) ->
        Forall2 (unfiltered_records ex) items recss ->
        convert {| file := Some path; filter := Some name; exclude := excl |} w
        = (Ok tt,
           World (<[path +:+ ".csv" := csv_text (concat recss)]> (files w))
             (stdout w ++ concat recss)))).
Proof.
  intros Ht Hjs Hname.
  split; [exact (unresolved_filter_run path name excl text js w Ht Hjs Hname)|].
  intros ex Hp Hex.
  set (args := {| file := Some path; filter := Some name; exclude := excl |}).
  assert (Hrun : convert args w
                 = with_csv (path +:+ ".csv") (convert_items JNull ex js) w).
  { rewrite (convert_loaded args path text js w eq_refl Hp Ht Hjs).
    cbn [args filter exclude].
    now rewrite (resolve_unresolved js name Hname), Hex. }
  rewrite Hrun. unfold with_csv, emitted. cbn [fst snd files].
  split; [reflexivity|]. split; [apply lookup_insert_eq|].
  split; [reflexivity|].
  intros items recss Hitems Hall.
  assert (Hloop : convert_items JNull ex js = (concat recss, Ok tt)).
  { unfold convert_items, mbind, emit_mbind. rewrite Hitems.
    cbn [result_mbind py_iter]. rewrite emit_bind_lift_ok.
    apply for_each_Forall2.
    eapply Forall2_impl; [exact Hall|].
    intros i recs. apply item_body_unfiltered. }
  now rewrite Hloop.
Qed.

Lemma unresolved_filter_is_no_filter_witness :
  files sample_world !! "export.json" = Some "(text of the export)" /\
  folder_name_to_id nested_ids_doc "Nope" = Ok JNull /\
  convert (rt := sample_runtime only_nope nested_ids_doc)
    only_nope sample_world
  = convert (rt := sample_runtime only_nope nested_ids_doc)
      only_file sample_world /\
  convert (rt := sample_runtime only_nope nested_ids_doc)
    only_nope sample_world
  = (Ok tt,
     World (<["export.json.csv" :=
              csv_text ["https://w.example,a,x"; "https://h.example,b,y";
                        "https://g.example,b,y"]]> (files sample_world))
       ["https://w.example,a,x"; "https://h.example,b,y";
        "https://g.example,b,y"]).
Proof.
  split; [reflexivity|]. split; [reflexivity|].
  destruct (unresolved_filter_is_no_filter
              (rt := sample_runtime only_nope nested_ids_doc)
              "export.json" "Nope" None "(text of the export)" nested_ids_doc
              sample_world eq_refl eq_refl eq_refl) as [Hsame Hwritten].
  split; [exact Hsame|].
  destruct (Hwritten JNull ltac:(discriminate) eq_refl)
    as (_ & _ & _ & Hall).
  apply (Hall _ [["https://w.example,a,x"];
                 ["https://h.example,b,y"; "https://g.example,b,y"]] eq_refl).
  apply List.Forall2_cons; [|apply List.Forall2_cons; [|apply List.Forall2_nil]].
  - right. right. split; [reflexivity|].
    exists (JStr "a"), (JStr "x"), [JStr "https://w.example"].
    split; [|reflexivity]. eexists _, _. repeat split. repeat constructor.
  - right. right. split; [reflexivity|].
    exists (JStr "b"), (JStr "y"),
      [JStr "https://h.example"; JStr "https://g.example"].
    split; [|reflexivity]. eexists _, _. repeat split. repeat constructor.
Defined.

(** C4 as stated fails: [--filter Nope] on the document of the worked
    example resolves to [None], and the record of the item is written to
    the output file. *)
Lemma unresolved_filter_counterexample :
  folder_name_to_id work_doc "Nope" = Ok JNull /\
  files (convert (rt := sample_runtime only_nope work_doc)
           only_nope sample_world).2 !! "export.json.csv"
  = Some (csv_text ["https://a.example,u,p"]) /\
  csv_text ["https://a.example,u,p"] <> csv_text [].
Proof. split; [reflexivity|]. split; [reflexivity|discriminate]. Qed.

(** ** C5: exclusion comes first *)

(** C5, as the code has it: an item whose [folderId] is a non-empty string
    equal to the exclude id contributes no record, whatever the include id
    is. *)
Theorem exclude_wins {rt : Runtime} folder_id fid i :
  fid <> "" ->
  dict_get i "folderId" = Ok (JStr fid) ->
  item_body folder_id (JStr fid) i = ([], Ok tt) /\
  included folder_id (JStr fid) i = false.
Proof.
  intros Hfid Hi.
  assert (Hex : excluded (JStr fid) i = Ok true).
  { unfold excluded. rewrite Hi. cbn [mbind result_mbind].
    rewrite (truthy_str _ Hfid). cbn [andb py_in].
    now rewrite occurs_in_refl. }
  split.
  - unfold item_body, mbind, emit_mbind.
    now rewrite Hex, emit_bind_lift_ok.
  - unfold included. now rewrite Hex.
Qed.

Lemma exclude_wins_witness :
  "1" <> "" /\
  dict_get (item_in (JStr "1")) "folderId" = Ok (JStr "1") /\
  item_body (rt := sample_runtime work_in_and_out work_doc)
    (JStr "1") (JStr "1") (item_in (JStr "1")) = ([], Ok tt).
Proof.
  split; [discriminate|]. split; [reflexivity|].
  refine (proj1 (exclude_wins (rt := sample_runtime work_in_and_out work_doc)
                   (JStr "1") "1" (item_in (JStr "1")) _ eq_refl)).
  discriminate.
Defined.

(** C5 as stated fails when the id is the empty string: [--filter Work
    --exclude Work] both resolve to the id of the item's folder, and the
    record of the item is written. *)
Lemma exclude_wins_counterexample :
  resolve blank_id_doc (filter work_in_and_out) = Ok (JStr "") /\
  resolve blank_id_doc (exclude work_in_and_out) = Ok (JStr "") /\
  getitem (item_in (JStr "")) "folderId" = Ok (JStr "") /\
  item_body (rt := sample_runtime work_in_and_out blank_id_doc)
    (JStr "") (JStr "") (item_in (JStr ""))
  = (["https://a.example,u,p"], Ok tt) /\
  files (convert (rt := sample_runtime work_in_and_out blank_id_doc)
           work_in_and_out sample_world).2 !! "export.json.csv"
  = Some (csv_text ["https://a.example,u,p"]).
Proof. repeat split. Qed.

(** ** C6: items without login data *)

(** C6: an item whose [login] entry is absent or null contributes no
    record, whatever the include and exclude ids are. *)
Theorem no_login_no_records {rt : Runtime} folder_id exclude i :
  login_field i = None \/ login_field i = Some JNull ->
  (item_body folder_id exclude i).1 = [].
Proof.
  intros Hl. unfold item_body, mbind, emit_mbind.
  destruct (excluded exclude i) as [[]|e]; try reflexivity.
  rewrite emit_bind_lift_ok.
  destruct i; try reflexivity.
  cbn [dict_get login_field] in *.
  now destruct Hl as [-> | ->].
Qed.

Lemma no_login_no_records_witness :
  login_field note_item = Some JNull /\
  (item_body (rt := sample_runtime only_work work_doc)
     (JStr "1") JNull note_item).1 = [].
Proof.
  split; [reflexivity|].
  apply (no_login_no_records (rt := sample_runtime only_work work_doc)).
  right. reflexivity.
Defined.

(** ** C7 and C8: runs that stop before the output file is opened *)

(** C7, on the code: with arguments but no [--file], the run prints the
    error message and leaves the files as they were, but [exit()] ends it
    with status 0, where the claim has a non-zero status. *)
Theorem missing_file_exit_status :
  main (rt := sample_runtime no_file work_doc)
    ["convert.py"; "--filter"; "Work"] sample_world
  = (Raise (SystemExit None),
     World (files sample_world)
       ["Bitwarden to Mooltipass"; "Error: Need a json file from Bitwarden"])
  /\ exit_status (@Raise unit (SystemExit None)) = 0%Z.
Proof. split; reflexivity. Qed.

(** C8: when the input file does not exist or [json.load] fails on its
    text, the run ends with that exception and exit status 1, and no file
    is created or changed; only the banner and what the argument parser
    printed are on standard output. *)
Theorem load_failure_writes_nothing {rt : Runtime} argv args path w :
  (2 <= length argv)%nat ->
  (parse_args argv).2 = Ok args ->
  file args = Some path -> path <> "" ->
  files w !! path = None \/
  (exists text, files w !! path = Some text /\ json_loads text = None) ->
  ((main argv w).1 = Raise FileNotFoundError \/
   (main argv w).1 = Raise JSONDecodeError) /\
  exit_status (main argv w).1 = 1%Z /\
  files (main argv w).2 = files w /\
  stdout (main argv w).2
  = ((stdout w ++ ["Bitwarden to Mooltipass"]) ++ (parse_args argv).1)%list.
Proof.
  intros Hlen Hargs Hf Hp Hfail.
  rewrite (main_parsed argv args w Hlen Hargs).
  set (w1 := World _ _).
  destruct (convert_load_failure args path w1 Hf Hp)
    as [[_ ->]|[(text & _ & _ & ->)|(text & js & Ht & Hjs)]].
  - cbn. auto.
  - cbn. auto.
  - exfalso. cbn [w1 files] in Ht.
    destruct Hfail as [Hnone|(text' & Ht' & Hnone)]; [congruence|].
    rewrite Ht in Ht'. injection Ht' as <-. congruence.
Qed.

Lemma load_failure_writes_nothing_witness :
  files sample_world !! "absent.json" = None /\
  (main (rt := sample_runtime
                {| file := Some "absent.json"; filter := None;
                   exclude := None |} work_doc)
     ["convert.py"; "--file"; "absent.json"] sample_world).1
  = Raise FileNotFoundError /\
  files (main (rt := sample_runtime
                 {| file := Some "absent.json"; filter := None;
                    exclude := None |} work_doc)
           ["convert.py"; "--file"; "absent.json"] sample_world).2
  = files sample_world.
Proof.
  split; [reflexivity|].
  pose proof (load_failure_writes_nothing
                (rt := sample_runtime
                         {| file := Some "absent.json"; filter := None;
                            exclude := None |} work_doc)
                ["convert.py"; "--file"; "absent.json"]
                {| file := Some "absent.json"; filter := None;
                   exclude := None |}
                "absent.json" sample_world) as H.
  destruct H as (_ & _ & Hfiles & _);
    [simpl; lia|reflexivity|reflexivity|discriminate|left; reflexivity|].
  split; [reflexivity|exact Hfiles].
Defined.

(** ** C9: [folder_name_to_id] *)

Lemma find_folder_skip name pre rest :
  Forall (named_otherwise name) pre ->
  find_folder (pre ++ rest)%list name = find_folder rest name.
Proof.
  induction 1 as [|f pre (n & Hn & Hne) _ IH]; [reflexivity|].
  cbn [app find_folder]. rewrite Hn. cbn [mbind result_mbind py_eq].
  apply String.eqb_neq in Hne. now rewrite Hne.
Qed.

(** C9: [folder_name_to_id] returns the id of the first folder, in the
    order of the document, whose name is the given one, also when later
    folders have that name; when every folder has another name it returns
    [None] and raises nothing. *)
Theorem folder_name_to_id_first_match js name fs :
  getitem js "folders" = Ok (JList fs) ->
  (forall pre f post idv,
     fs = (pre ++ f :: post)%list ->
     Forall (named_otherwise name) pre ->
     getitem f "name" = Ok (JStr name) ->
     getitem f "id" = Ok idv ->
     folder_name_to_id js name = Ok idv) /\
  (Forall (named_otherwise name) fs ->
   folder_name_to_id js name = Ok JNull).
Proof.
  intros Hfs. unfold folder_name_to_id. rewrite Hfs.
  cbn [mbind result_mbind py_iter]. split.
  - intros pre f post idv -> Hpre Hname Hid.
    rewrite (find_folder_skip _ _ _ Hpre). cbn [find_folder].
    rewrite Hname. cbn [mbind result_mbind py_eq].
    now rewrite String.eqb_refl.
  - intros Hall. rewrite <- (app_nil_r fs).
    now rewrite (find_folder_skip _ _ _ Hall).
Qed.

Lemma folder_name_to_id_first_match_witness :
  getitem twin_doc "folders"
  = Ok (JList [folder "1" "Work"; folder "2" "Home"; folder "3" "Home"]) /\
  folder_name_to_id twin_doc "Home" = Ok (JStr "2") /\
  folder_name_to_id twin_doc "Nope" = Ok JNull.
Proof.
  split; [reflexivity|].
  pose proof (folder_name_to_id_first_match twin_doc "Home" _ eq_refl) as [H _].
  pose proof (folder_name_to_id_first_match twin_doc "Nope" _ eq_refl) as [_ H'].
  split.
  - apply (H [folder "1" "Work"] (folder "2" "Home") [folder "3" "Home"]);
      try reflexivity.
    repeat constructor. exists "Work". split; [reflexivity|discriminate].
  - apply H'. repeat constructor;
      eexists; (split; [reflexivity|discriminate]).
Defined.

(** ** C10: a filter and an item without [folderId] *)

Section NoFolder.
Context {rt : Runtime}.

Lemma excluded_no_folder exclude i :
  dict_get i "folderId" = Ok JNull -> excluded exclude i = Ok false.
Proof. intros Hi. unfold excluded. now rewrite Hi. Qed.

Lemma include_test_no_folder folder_id i :
  truthy folder_id = true ->
  dict_get i "folderId" = Ok JNull ->
  include_test folder_id i = Raise (missing_folder_error i).
Proof.
  intros Hset Hi. unfold include_test, missing_folder_error. rewrite Hset.
  destruct i; try discriminate Hi. cbn [dict_get getitem] in *.
  destruct (dict_lookup "folderId" d) as [v|]; [|reflexivity].
  injection Hi as ->. reflexivity.
Qed.

(** The inner loop raises at its first URI when the inclusion test does. *)
Lemma uri_loop_raises folder_id i un pw u us e :
  include_test folder_id i = Raise e ->
  exists e', for_each (u :: us) (uri_body folder_id i un pw) = ([], Raise e') /\
             (forall v, getitem u "uri" = Ok v -> e' = e).
Proof.
  intros Hk. cbn [for_each]. unfold uri_body at 1, mbind, emit_mbind.
  destruct (getitem u "uri") as [v|e1].
  - rewrite emit_bind_lift_ok, Hk. exists e. split; [reflexivity|auto].
  - exists e1. split; [reflexivity|discriminate].
Qed.

Lemma item_without_folder_raises folder_id exclude i login u us :
  truthy folder_id = true ->
  dict_get i "folderId" = Ok JNull ->
  dict_get i "login" = Ok login -> is_null login = false ->
  getitem login "uris" ≫= py_iter = Ok (u :: us) ->
  exists e, item_body folder_id exclude i = ([], Raise e) /\
    (forall un pw v,
       getitem login "username" = Ok un ->
       getitem login "password" = Ok pw ->
       getitem u "uri" = Ok v -> e = missing_folder_error i).
Proof.
  intros Hset Hi Hl Hnn Hus.
  pose proof (include_test_no_folder folder_id i Hset Hi) as Hk.
  unfold item_body, mbind, emit_mbind. unfold mbind in Hus.
  rewrite (excluded_no_folder exclude i Hi), emit_bind_lift_ok, Hl,
    emit_bind_lift_ok.
  assert (Hrest : exists e,
    emit_bind (lift (getitem login "username")) (fun username =>
    emit_bind (lift (getitem login "password")) (fun password =>
    emit_bind (lift (result_mbind _ _ py_iter (getitem login "uris")))
      (fun uris => for_each uris (uri_body folder_id i username password))))
    = ([], Raise e) /\
    (forall un pw v,
       getitem login "username" = Ok un ->
       getitem login "password" = Ok pw ->
       getitem u "uri" = Ok v -> e = missing_folder_error i)).
  { rewrite Hus.
    destruct (getitem login "username") as [un|e1];
      [|exists e1; split; [reflexivity|discriminate]].
    rewrite emit_bind_lift_ok.
    destruct (getitem login "password") as [pw|e2];
      [|exists e2; split; [reflexivity|discriminate]].
    rewrite !emit_bind_lift_ok.
    destruct (uri_loop_raises folder_id i un pw u us _ Hk) as (e & -> & He).
    exists e. split; [reflexivity|]. intros _ _ v _ _ Hv. exact (He v Hv). }
  destruct login; try discriminate Hnn; exact Hrest.
Qed.

End NoFolder.

(** C10, as the code has it: when the include id is set (it is truthy, a
    non-empty string), an item that has login data with at least one URI
    and whose [folderId] is absent or null makes the conversion end with an
    uncaught exception, exit status 1.  The inclusion test raises on that
    item, [KeyError] for an absent [folderId] and [TypeError] for a null
    one, and this is the exception the item ends with when its user name,
    password and first URI can be read. *)
Theorem filter_aborts_on_item_without_folder {rt : Runtime}
    folder_id exclude js items i login u us :
  truthy folder_id = true ->
  getitem js "items" ≫= py_iter = Ok items ->
  i ∈ items ->
  dict_get i "folderId" = Ok JNull ->
  dict_get i "login" = Ok login -> is_null login = false ->
  getitem login "uris" ≫= py_iter = Ok (u :: us) ->
  (exists e, (convert_items folder_id exclude js).2 = Raise e /\
             is_fault e /\ exit_status (@Raise unit e) = 1%Z) /\
  include_test folder_id i = Raise (missing_folder_error i) /\
  (forall un pw v,
     getitem login "username" = Ok un ->
     getitem login "password" = Ok pw ->
     getitem u "uri" = Ok v ->
     item_body folder_id exclude i = ([], Raise (missing_folder_error i))).
Proof.
  intros Hset Hitems Hin Hi Hl Hnn Hus.
  destruct (item_without_folder_raises folder_id exclude i login u us
              Hset Hi Hl Hnn Hus) as (e & Hbody & He).
  split; [|split].
  - assert (exists e', (convert_items folder_id exclude js).2 = Raise e')
      as [e' He'].
    { unfold convert_items, mbind at 1, emit_mbind.
      rewrite Hitems, emit_bind_lift_ok.
      apply (for_each_raises _ _ i e Hin). now rewrite Hbody. }
    exists e'. split; [exact He'|].
    pose proof (convert_items_fault _ _ _ _ He') as Hfault.
    split; [exact Hfault|]. now apply fault_exit_status.
  - now apply include_test_no_folder.
  - intros un pw v Hun Hpw Hv. rewrite Hbody.
    now rewrite (He un pw v Hun Hpw Hv).
Qed.

Lemma filter_aborts_on_item_without_folder_witness :
  truthy (JStr "1") = true /\
  dict_get (item_in JNull) "folderId" = Ok JNull /\
  item_body (rt := sample_runtime only_work work_doc)
    (JStr "1") JNull (item_in JNull) = ([], Raise TypeError) /\
  item_body (rt := sample_runtime only_work work_doc)
    (JStr "1") JNull item_without_folder = ([], Raise (KeyError "folderId")).
Proof.
  split; [reflexivity|]. split; [reflexivity|]. split.
  - refine (proj2 (proj2 (filter_aborts_on_item_without_folder
              (rt := sample_runtime only_work work_doc)
              (JStr "1") JNull
              (document [folder "1" "Work"] [item_in JNull])
              [item_in JNull] (item_in JNull) sample_login
              (JDict [("uri", JStr "https://a.example")]) []
              eq_refl eq_refl _ eq_refl eq_refl eq_refl eq_refl))
              (JStr "u") (JStr "p") (JStr "https://a.example")
              eq_refl eq_refl eq_refl).
    apply list_elem_of_here.
  - refine (proj2 (proj2 (filter_aborts_on_item_without_folder
              (rt := sample_runtime only_work work_doc)
              (JStr "1") JNull
              (document [folder "1" "Work"] [item_without_folder])
              [item_without_folder] item_without_folder sample_login
              (JDict [("uri", JStr "https://a.example")]) []
              eq_refl eq_refl _ eq_refl eq_refl eq_refl eq_refl))
              (JStr "u") (JStr "p") (JStr "https://a.example")
              eq_refl eq_refl eq_refl).
    apply list_elem_of_here.
Defined.

(** C10 as stated fails when the folder that [--filter] names has the
    empty string as its id: the filter resolves to that id, the item has
    no [folderId], and the run completes and writes the item's record. *)
Lemma filter_abort_counterexample :
  resolve blank_id_loose_doc (filter only_work) = Ok (JStr "") /\
  dict_get item_without_folder "folderId" = Ok JNull /\
  convert_items (rt := sample_runtime only_work blank_id_loose_doc)
    (JStr "") JNull blank_id_loose_doc
  = (["https://a.example,u,p"], Ok tt) /\
  (convert (rt := sample_runtime only_work blank_id_loose_doc)
     only_work sample_world).1 = Ok tt.
Proof. repeat split. Qed.

(** ** Strings: what [in] tests *)

Lemma app_length_string s t :
  String.length (s +:+ t) = (String.length s + String.length t)%nat.
Proof. induction s as [|c s IH]; simpl; [reflexivity|]. now f_equal. Qed.

Lemma append_csv_ne s : s +:+ ".csv" <> s.
Proof.
  intros H. apply (f_equal String.length) in H.
  rewrite app_length_string in H. cbn in H. lia.
Qed.

Lemma prefix_spec t s :
  String.prefix t s = true <-> exists b, s = t +:+ b.
Proof.
  revert s. induction t as [|c t IH]; intros s.
  - split; [intros _; now exists s|]. intros _. now destruct s.
  - destruct s as [|d s]; simpl.
    + split; [discriminate|intros [b Hb]; discriminate].
    + destruct (ascii_dec c d) as [->|Hne].
      * rewrite IH. split; intros [b Hb]; exists b; [now rewrite Hb|].
        now injection Hb.
      * split; [discriminate|]. intros [b Hb]. injection Hb as Hcd _.
        congruence.
Qed.

(** [t in s] holds exactly when [s] is [t] with some text before and
    after it. *)
Lemma occurs_in_spec t s :
  occurs_in t s = true <-> exists a b, s = a +:+ t +:+ b.
Proof.
  induction s as [|d s IH]; cbn [occurs_in].
  - rewrite orb_false_r, prefix_spec. split.
    + intros [b Hb]. now exists "", b.
    + intros (a & b & Hab). destruct a; [now exists b|discriminate].
  - rewrite orb_true_iff, prefix_spec, IH. split.
    + intros [[b Hb]|(a & b & Hab)].
      * now exists "", b.
      * exists (String d a), b. cbn. now rewrite Hab.
    + intros (a & b & Hab). destruct a as [|c a].
      * left. now exists b.
      * right. exists a, b. cbn in Hab. now injection Hab.
Qed.

(** ** The run, case by case *)

Section RunShape.
Context {rt : Runtime}.

Lemma given_inv o : given o = true -> exists s, o = Some s /\ s <> "".
Proof.
  destruct o as [s|]; [|discriminate]. cbn. intros H. exists s.
  split; [reflexivity|]. intros ->. discriminate.
Qed.

(** [convert] with an input file, as a cascade of its stages. *)
Lemma convert_stages args path w :
  file args = Some path -> path <> "" ->
  convert args w
  = match files w !! path with
    | None => (Raise FileNotFoundError, w)
    | Some text =>
        match json_loads text with
        | None => (Raise JSONDecodeError, w)
        | Some js =>
            match resolve js (filter args) with
            | Raise e => (Raise e, w)
            | Ok folder_id =>
                match resolve js (exclude args) with
                | Raise e => (Raise e, w)
                | Ok excl =>
                    with_csv (path +:+ ".csv")
                      (convert_items folder_id excl js) w
                end
            end
        end
    end.
Proof.
  intros Hf Hp.
  destruct (convert_load_failure args path w Hf Hp)
    as [[-> ->]|[(text & -> & -> & ->)|(text & js & Ht & Hjs)]];
    try reflexivity.
  rewrite (convert_loaded args path text js w Hf Hp Ht Hjs), Ht, Hjs.
  reflexivity.
Qed.

Lemma find_folder_fault fs name e :
  find_folder fs name = Raise e -> is_fault e.
Proof.
  induction fs as [|f fs IH]; cbn [find_folder]; [discriminate|].
  destruct (getitem f "name") as [n|e1] eqn:Hn; cbn [mbind result_mbind].
  - destruct (py_eq n (JStr name)); [apply getitem_fault|exact IH].
  - intros [= <-]. exact (getitem_fault _ _ _ Hn).
Qed.

Lemma folder_name_to_id_fault js name e :
  folder_name_to_id js name = Raise e -> is_fault e.
Proof.
  unfold folder_name_to_id.
  destruct (getitem js "folders") as [fs|e1] eqn:Hfs; cbn [mbind result_mbind].
  - destruct (py_iter fs) as [l|e2] eqn:Hl; cbn [mbind result_mbind].
    + apply find_folder_fault.
    + intros [= <-]. exact (py_iter_fault _ _ Hl).
  - intros [= <-]. exact (getitem_fault _ _ _ Hfs).
Qed.

Lemma resolve_fault js name e : resolve js name = Raise e -> is_fault e.
Proof.
  unfold resolve. destruct (given name); [|discriminate].
  apply folder_name_to_id_fault.
Qed.

(** A second run that starts from the files the first one left ends the
    same way and leaves the same files. *)
Lemma convert_rerun args w w' :
  files w' = files (convert args w).2 ->
  files (convert args w').2 = files (convert args w).2 /\
  (convert args w').1 = (convert args w).1.
Proof.
  destruct (given (file args)) eqn:Hg.
  - destruct (given_inv _ Hg) as (path & Hf & Hp).
    rewrite !(convert_stages args path _ Hf Hp).
    destruct (files w !! path) as [text|] eqn:Ht.
    2:{ cbn [snd]. intros Hw'. rewrite Hw', Ht. cbn [fst snd]. auto. }
    destruct (json_loads text) as [js|] eqn:Hjs.
    2:{ cbn [snd]. intros Hw'. rewrite Hw', Ht, Hjs. cbn [fst snd]. auto. }
    destruct (resolve js (filter args)) as [fid|e1] eqn:Hfid.
    2:{ cbn [snd]. intros Hw'. rewrite Hw', Ht, Hjs, Hfid. cbn [fst snd].
        auto. }
    destruct (resolve js (exclude args)) as [ex|e2] eqn:Hex.
    2:{ cbn [snd]. intros Hw'. rewrite Hw', Ht, Hjs, Hfid, Hex.
        cbn [fst snd]. auto. }
    unfold with_csv at 1 2. cbn [fst snd files]. intros Hw'.
    rewrite Hw', lookup_insert_ne, Ht, Hjs, Hfid, Hex
      by apply append_csv_ne.
    unfold with_csv. cbn [fst snd files].
    now rewrite insert_insert_eq.
  - rewrite !convert_without_file by exact Hg. cbn [fst snd files]. auto.
Qed.

End RunShape.

(** ** [get_args] and [main]: runs that never reach the conversion *)

Section EarlyExits.
Context {rt : Runtime}.

Lemma main_without_arguments argv w :
  (length argv < 2)%nat ->
  main argv w
  = (Raise (SystemExit (Some 1%Z)),
     World (files w) ((stdout w ++ ["Bitwarden to Mooltipass"]) ++ [help_text])).
Proof.
  intros Hlen. unfold main, get_args.
  now destruct (Nat.ltb_spec (length argv) 2) as [_|Hge]; [|lia].
Qed.

Lemma main_parser_exit argv e w :
  (2 <= length argv)%nat ->
  (parse_args argv).2 = Raise e ->
  main argv w
  = (Raise e,
     World (files w)
       ((stdout w ++ ["Bitwarden to Mooltipass"]) ++ (parse_args argv).1)).
Proof.
  intros Hlen He. unfold main, get_args.
  destruct (Nat.ltb_spec (length argv) 2) as [Hlt|_]; [lia|].
  unfold mbind, io_mbind, io_bind, print, io_lift. cbn beta iota.
  cbn [files stdout]. now rewrite He.
Qed.

End EarlyExits.

(** X1: called without arguments, the script prints its banner and the
    help text, exits with status 1 and leaves every file as it was. *)
Theorem no_arguments_prints_help {rt : Runtime} argv w :
  (length argv < 2)%nat ->
  (main argv w).1 = Raise (SystemExit (Some 1%Z)) /\
  exit_status (main argv w).1 = 1%Z /\
  files (main argv w).2 = files w /\
  stdout (main argv w).2
  = ((stdout w ++ ["Bitwarden to Mooltipass"]) ++ [help_text])%list.
Proof.
  intros Hlen. rewrite (main_without_arguments argv w Hlen).
  repeat split.
Qed.

Lemma no_arguments_prints_help_witness :
  (length ["convert.py"] < 2)%nat /\
  exit_status (main (rt := sample_runtime no_args work_doc)
                 ["convert.py"] sample_world).1 = 1%Z.
Proof.
  split; [simpl; lia|].
  refine (proj1 (proj2 (no_arguments_prints_help
            (rt := sample_runtime no_args work_doc)
            ["convert.py"] sample_world _))).
  simpl; lia.
Defined.

(** X2: when the argument parser ends the run (an unknown option, [-h]),
    the script ends with the parser's exit and has printed only its banner
    and what the parser printed; no file is created or changed. *)
Theorem parser_exit_ends_run {rt : Runtime} argv e w :
  (2 <= length argv)%nat ->
  (parse_args argv).2 = Raise e ->
  (main argv w).1 = Raise e /\
  files (main argv w).2 = files w /\
  stdout (main argv w).2
  = ((stdout w ++ ["Bitwarden to Mooltipass"]) ++ (parse_args argv).1)%list.
Proof.
  intros Hlen He. rewrite (main_parser_exit argv e w Hlen He).
  repeat split.
Qed.

Lemma parser_exit_ends_run_witness :
  (2 <= length ["convert.py"; "--bogus"])%nat /\
  (main (rt := rejecting_runtime) ["convert.py"; "--bogus"] sample_world).1
  = Raise (SystemExit (Some 2%Z)) /\
  files (main (rt := rejecting_runtime)
           ["convert.py"; "--bogus"] sample_world).2
  = files sample_world.
Proof.
  split; [simpl; lia|].
  destruct (parser_exit_ends_run (rt := rejecting_runtime)
              ["convert.py"; "--bogus"] (SystemExit (Some 2%Z)) sample_world)
    as (Hr & Hf & _); [simpl; lia|reflexivity|].
  split; [exact Hr|exact Hf].
Defined.

(** ** [main]: the files of a run *)

Section FilesOfRun.
Context {rt : Runtime}.

Lemma convert_touches_only_output args w p :
  p <> output_path args ->
  files (convert args w).2 !! p = files w !! p.
Proof.
  intros Hp. destruct (given (file args)) eqn:Hg.
  - destruct (given_inv _ Hg) as (path & Hf & Hne).
    rewrite (convert_stages args path w Hf Hne).
    unfold output_path in Hp. rewrite Hf in Hp. cbn in Hp.
    destruct (files w !! path) as [text|]; [|reflexivity].
    destruct (json_loads text) as [js|]; [|reflexivity].
    destruct (resolve js (filter args)); [|reflexivity].
    destruct (resolve js (exclude args)); [|reflexivity].
    unfold with_csv. cbn [snd files]. now apply lookup_insert_ne.
  - now rewrite convert_without_file.
Qed.

End FilesOfRun.

(** X3: a run changes no file but its output file [<file>.csv]; in
    particular it never modifies the input file. *)
Theorem run_touches_only_output {rt : Runtime} argv args w :
  (2 <= length argv)%nat ->
  (parse_args argv).2 = Ok args ->
  (forall p, p <> output_path args ->
             files (main argv w).2 !! p = files w !! p) /\
  (forall path, file args = Some path ->
                files (main argv w).2 !! path = files w !! path).
Proof.
  intros Hlen Hargs. rewrite (main_parsed argv args w Hlen Hargs).
  split.
  - intros p Hp. now rewrite convert_touches_only_output.
  - intros path Hf. rewrite convert_touches_only_output; [reflexivity|].
    unfold output_path. rewrite Hf. cbn. intros H. symmetry in H.
    exact (append_csv_ne _ H).
Qed.

Lemma run_touches_only_output_witness :
  (2 <= length ["convert.py"; "-f"; "export.json"])%nat /\
  files (main (rt := sample_runtime only_file work_doc)
           ["convert.py"; "-f"; "export.json"] used_world).2 !! "notes.txt"
  = Some "keep" /\
  files (main (rt := sample_runtime only_file work_doc)
           ["convert.py"; "-f"; "export.json"] used_world).2 !! "export.json"
  = Some "(text of the export)".
Proof.
  split; [simpl; lia|].
  destruct (run_touches_only_output (rt := sample_runtime only_file work_doc)
              ["convert.py"; "-f"; "export.json"] only_file used_world)
    as [Hother Hinput]; [simpl; lia|reflexivity|].
  split.
  - rewrite Hother; [reflexivity|discriminate].
  - rewrite (Hinput "export.json" eq_refl). reflexivity.
Defined.

(** X4: running the script again on the files the first run left ends the
    same way and leaves the same files: the output file is rewritten with
    the same text. *)
Theorem rerun_leaves_same_files {rt : Runtime} argv w :
  files (main argv (main argv w).2).2 = files (main argv w).2 /\
  (main argv (main argv w).2).1 = (main argv w).1.
Proof.
  destruct (Nat.ltb_spec (length argv) 2) as [Hlt|Hge].
  - rewrite !(main_without_arguments argv _ Hlt). now cbn.
  - destruct (parse_args argv).2 as [args|e] eqn:Hargs.
    + rewrite !(main_parsed argv args _ Hge Hargs).
      now apply convert_rerun.
    + rewrite !(main_parser_exit argv e _ Hge Hargs). now cbn.
Qed.

(** ** [main]: resolution of [--filter] and [--exclude] *)

(** X5: when the name given to [--exclude] matches no folder, resolution
    returns [None] and nothing is excluded: the run is the run without
    [--exclude]. *)
Theorem unresolved_exclude_is_no_exclude {rt : Runtime}
    path name flt text js w :
  files w !! path = Some text ->
  json_loads text = Some js ->
  folder_name_to_id js name = Ok JNull ->
  convert {| file := Some path; filter := flt; exclude := Some name |} w
  = convert {| file := Some path; filter := flt; exclude := None |} w.
Proof.
  intros Ht Hjs Hname. unfold convert. cbn [file filter exclude].
  destruct (negb (given (Some path))); [reflexivity|].
  unfold mbind, io_mbind, io_bind, load_json. cbn beta.
  cbn [default from_option id]. rewrite Ht, Hjs.
  replace (resolve js (Some name)) with (resolve js None); [reflexivity|].
  unfold resolve. cbn [default from_option id given].
  destruct (truthy (JStr name)); [now rewrite Hname|reflexivity].
Qed.

Lemma unresolved_exclude_is_no_exclude_witness :
  files sample_world !! "export.json" = Some "(text of the export)" /\
  folder_name_to_id work_doc "Nope" = Ok JNull /\
  convert (rt := sample_runtime nope_out work_doc) nope_out sample_world
  = convert (rt := sample_runtime nope_out work_doc) only_file sample_world.
Proof.
  split; [reflexivity|]. split; [reflexivity|].
  exact (unresolved_exclude_is_no_exclude
           (rt := sample_runtime nope_out work_doc)
           "export.json" "Nope" None "(text of the export)" work_doc
           sample_world eq_refl eq_refl eq_refl).
Defined.

(** X12: when resolving the [--filter] or the [--exclude] name raises (the
    document has no [folders] entry, a folder has no [name]), the run ends
    with that exception, exit status 1, before the output file is opened:
    the world is as it was. *)
Theorem failed_resolution_writes_nothing {rt : Runtime}
    args path text js e w :
  file args = Some path -> path <> "" ->
  files w !! path = Some text -> json_loads text = Some js ->
  resolve js (filter args) = Raise e \/
  ((exists v, resolve js (filter args) = Ok v) /\
   resolve js (exclude args) = Raise e) ->
  convert args w = (Raise e, w) /\
  exit_status (convert args w).1 = 1%Z.
Proof.
  intros Hf Hp Ht Hjs Hres.
  rewrite (convert_loaded args path text js w Hf Hp Ht Hjs).
  destruct Hres as [Hr|[[v Hv] Hr]].
  - rewrite Hr. split; [reflexivity|].
    apply fault_exit_status. exact (resolve_fault _ _ _ Hr).
  - rewrite Hv, Hr. split; [reflexivity|].
    apply fault_exit_status. exact (resolve_fault _ _ _ Hr).
Qed.

Lemma failed_resolution_writes_nothing_witness :
  resolve folderless_doc (filter work_from_folderless)
  = Raise (KeyError "folders") /\
  convert (rt := sample_runtime work_from_folderless folderless_doc)
    work_from_folderless used_world
  = (Raise (KeyError "folders"), used_world).
Proof.
  split; [reflexivity|].
  refine (proj1 (failed_resolution_writes_nothing
            (rt := sample_runtime work_from_folderless folderless_doc)
            work_from_folderless "export.json" "(text of the export)"
            folderless_doc (KeyError "folders") used_world
            eq_refl _ eq_refl eq_refl (or_introl eq_refl))).
  discriminate.
Defined.

(** X13: without [--filter] and [--exclude] the [folders] of the document
    are never read: the run is the conversion with both ids unset, and an
    item is included exactly when it has login data. *)
Theorem plain_run_reads_no_folders {rt : Runtime} args path text js w :
  file args = Some path -> path <> "" ->
  given (filter args) = false -> given (exclude args) = false ->
  files w !! path = Some text -> json_loads text = Some js ->
  convert args w
  = with_csv (path +:+ ".csv") (convert_items JNull JNull js) w /\
  (forall d, included JNull JNull (JDict d)
             = negb (is_null (default JNull (dict_lookup "login" d)))).
Proof.
  intros Hf Hp Hflt Hex Ht Hjs. split.
  - rewrite (convert_loaded args path text js w Hf Hp Ht Hjs).
    unfold resolve. now rewrite Hflt, Hex.
  - intros d. unfold included, excluded. cbn [dict_get mbind result_mbind].
    cbn [truthy]. rewrite andb_false_r. cbn [include_test truthy].
    reflexivity.
Qed.

Lemma plain_run_reads_no_folders_witness :
  getitem folderless_doc "folders" = Raise (KeyError "folders") /\
  convert (rt := sample_runtime only_file folderless_doc)
    only_file sample_world
  = (Ok tt,
     World (<["export.json.csv" := csv_text ["https://w.example,a,x"]]>
              (files sample_world))
       ["https://w.example,a,x"]).
Proof.
  split; [reflexivity|].
  refine (proj1 (plain_run_reads_no_folders
            (rt := sample_runtime only_file folderless_doc)
            only_file "export.json" "(text of the export)" folderless_doc
            sample_world eq_refl _ eq_refl eq_refl eq_refl eq_refl)).
  discriminate.
Defined.

(** X11: the output file is opened before the [items] of the document are
    read: when the document has no [items] entry, or one that cannot be
    iterated, the run ends with that exception and the output file is left
    empty, whatever it held before. *)
Theorem missing_items_empties_output {rt : Runtime}
    args path text js folder_id excl e w :
  file args = Some path -> path <> "" ->
  files w !! path = Some text -> json_loads text = Some js ->
  resolve js (filter args) = Ok folder_id ->
  resolve js (exclude args) = Ok excl ->
  getitem js "items" ≫= py_iter = Raise e ->
  (convert args w).1 = Raise e /\
  files (convert args w).2 = <[path +:+ ".csv" := ""]> (files w) /\
  stdout (convert args w).2 = stdout w.
Proof.
  intros Hf Hp Ht Hjs Hfid Hex Hitems.
  rewrite (convert_loaded args path text js w Hf Hp Ht Hjs), Hfid, Hex.
  unfold with_csv, convert_items. rewrite Hitems. cbn.
  now rewrite app_nil_r.
Qed.

Lemma missing_items_empties_output_witness :
  files used_world !! "export.json.csv" = Some "old" /\
  (convert (rt := sample_runtime only_file itemless_doc)
     only_file used_world).1 = Raise (KeyError "items") /\
  files (convert (rt := sample_runtime only_file itemless_doc)
           only_file used_world).2 !! "export.json.csv" = Some "".
Proof.
  split; [reflexivity|].
  destruct (missing_items_empties_output
              (rt := sample_runtime only_file itemless_doc)
              only_file "export.json" "(text of the export)" itemless_doc
              JNull JNull (KeyError "items") used_world)
    as (Hr & Hfiles & _); try reflexivity; [discriminate|].
  split; [exact Hr|]. rewrite Hfiles. reflexivity.
Defined.

(** X17: with an input file given, the exit status is 0 exactly when the
    conversion ran to its end; every other run ends with an uncaught
    exception and status 1. *)
Theorem exit_status_with_file {rt : Runtime} args w :
  given (file args) = true ->
  (exit_status (convert args w).1 = 0%Z <-> (convert args w).1 = Ok tt) /\
  ((convert args w).1 = Ok tt \/ exit_status (convert args w).1 = 1%Z).
Proof.
  intros Hg. destruct (given_inv _ Hg) as (path & Hf & Hp).
  assert (Hcases : (convert args w).1 = Ok tt \/
                   exit_status (convert args w).1 = 1%Z).
  { rewrite (convert_stages args path w Hf Hp).
    destruct (files w !! path) as [text|]; [|now right].
    destruct (json_loads text) as [js|]; [|now right].
    destruct (resolve js (filter args)) as [fid|e1] eqn:Hfid.
    2:{ right. apply fault_exit_status. exact (resolve_fault _ _ _ Hfid). }
    destruct (resolve js (exclude args)) as [ex|e2] eqn:Hex.
    2:{ right. apply fault_exit_status. exact (resolve_fault _ _ _ Hex). }
    unfold with_csv. cbn [fst].
    destruct (convert_items fid ex js).2 as [[]|e3] eqn:Hrun; [now left|].
    right. apply fault_exit_status.
    exact (convert_items_fault _ _ _ _ Hrun). }
  split; [|exact Hcases]. split.
  - intros H0. destruct Hcases as [Hok|H1]; [exact Hok|]. rewrite H0 in H1.
    discriminate.
  - now intros ->.
Qed.

Lemma exit_status_with_file_witness :
  given (file only_work) = true /\
  exit_status (convert (rt := sample_runtime only_work work_doc)
                 only_work sample_world).1 = 0%Z.
Proof.
  split; [reflexivity|].
  apply (proj1 (exit_status_with_file (rt := sample_runtime only_work work_doc)
                  only_work sample_world eq_refl)).
  reflexivity.
Defined.

(** ** The loop: which items are written *)

(** X6: exclusion tests [folderid in exclude] on two strings: an item
    with a non-empty [folderId] is skipped exactly when its [folderId]
    occurs within the non-empty exclude id, so excluding the folder with id
    [12] also drops the items of the folder with id [1].  A skipped item
    writes nothing and raises nothing, whatever its login data and the
    include id are. *)
Theorem exclude_is_containment {rt : Runtime} folder_id e s i :
  s <> "" -> e <> "" ->
  dict_get i "folderId" = Ok (JStr s) ->
  (excluded (JStr e) i = Ok true <-> exists a b, e = a +:+ s +:+ b) /\
  ((exists a b, e = a +:+ s +:+ b) ->
   item_body folder_id (JStr e) i = ([], Ok tt)).
Proof.
  intros Hs He Hi.
  assert (Hex : excluded (JStr e) i = Ok (occurs_in s e)).
  { unfold excluded. rewrite Hi. cbn [mbind result_mbind].
    now rewrite (truthy_str _ Hs), (truthy_str _ He). }
  split.
  - rewrite Hex, <- occurs_in_spec. split; [now intros [= ->]|now intros ->].
  - intros Hocc. apply occurs_in_spec in Hocc.
    unfold item_body, mbind, emit_mbind.
    now rewrite Hex, Hocc, emit_bind_lift_ok.
Qed.

Lemma exclude_is_containment_witness :
  dict_get (credential (JStr "1") "a" "x" ["https://w.example"]) "folderId"
  = Ok (JStr "1") /\
  resolve nested_ids_doc (exclude only_home_out) = Ok (JStr "12") /\
  item_body (rt := sample_runtime only_home_out nested_ids_doc)
    JNull (JStr "12") (credential (JStr "1") "a" "x" ["https://w.example"])
  = ([], Ok tt).
Proof.
  split; [reflexivity|]. split; [reflexivity|].
  refine (proj2 (exclude_is_containment
            (rt := sample_runtime only_home_out nested_ids_doc)
            JNull "12" "1"
            (credential (JStr "1") "a" "x" ["https://w.example"])
            _ _ eq_refl) _); try discriminate.
  exists "", "2". reflexivity.
Defined.

(** X7: an item whose [folderId] is absent or null is never excluded:
    when no include id is set and its login data can be read, all its
    records are written, whatever the exclude id is. *)
Theorem folderless_item_is_written {rt : Runtime}
    folder_id exclude i un pw vs :
  truthy folder_id = false ->
  dict_get i "folderId" = Ok JNull ->
  reads_login i un pw vs ->
  excluded exclude i = Ok false /\
  item_body folder_id exclude i
  = (map (fun v => record_text v un pw) vs, Ok tt).
Proof.
  intros Hunset Hi Hr.
  pose proof (excluded_no_folder exclude i Hi) as Hex.
  split; [exact Hex|].
  apply (item_body_records folder_id exclude i un pw vs true Hex Hr).
  unfold include_test. now rewrite Hunset.
Qed.

Lemma folderless_item_is_written_witness :
  dict_get item_without_folder "folderId" = Ok JNull /\
  item_body (rt := sample_runtime only_home_out nested_ids_doc)
    JNull (JStr "12") item_without_folder
  = (["https://a.example,u,p"], Ok tt).
Proof.
  split; [reflexivity|].
  refine (proj2 (folderless_item_is_written
            (rt := sample_runtime only_home_out nested_ids_doc)
            JNull (JStr "12") item_without_folder (JStr "u") (JStr "p")
            [JStr "https://a.example"] eq_refl eq_refl _)).
  exists sample_login, [JDict [("uri", JStr "https://a.example")]].
  repeat split. repeat constructor.
Defined.

(** X8: the inclusion test [folder_id in i['folderId']] on two strings
    holds exactly when the item's [folderId] is the include id with some
    text, possibly empty, before and after it. *)
Theorem include_test_is_substring fid s i :
  fid <> "" ->
  getitem i "folderId" = Ok (JStr s) ->
  (include_test (JStr fid) i = Ok true <-> exists a b, s = a +:+ fid +:+ b) /\
  (include_test (JStr fid) i = Ok false
   <-> ~ exists a b, s = a +:+ fid +:+ b).
Proof.
  intros Hfid Hi.
  assert (Hk : include_test (JStr fid) i = Ok (occurs_in fid s)).
  { unfold include_test. rewrite (truthy_str _ Hfid), Hi. reflexivity. }
  rewrite Hk, <- occurs_in_spec.
  destruct (occurs_in fid s); split; split; congruence.
Qed.

Lemma include_test_is_substring_witness :
  getitem (item_in (JStr "x-12-y")) "folderId" = Ok (JStr "x-12-y") /\
  include_test (JStr "12") (item_in (JStr "x-12-y")) = Ok true.
Proof.
  split; [reflexivity|].
  apply (proj1 (include_test_is_substring "12" "x-12-y"
                  (item_in (JStr "x-12-y")) ltac:(discriminate) eq_refl)).
  exists "x-", "-y". reflexivity.
Defined.

(** X18: an item without [folderId] stops a filtered run only through
    its URIs: a note (null login) or login data with an empty [uris] list
    is skipped without an error, because the inclusion test is evaluated
    once per URI. *)
Theorem folderless_item_without_uri_is_skipped {rt : Runtime}
    folder_id exclude i login :
  dict_get i "folderId" = Ok JNull ->
  dict_get i "login" = Ok login ->
  login = JNull \/
  ((exists un, getitem login "username" = Ok un) /\
   (exists pw, getitem login "password" = Ok pw) /\
   getitem login "uris" = Ok (JList [])) ->
  item_body folder_id exclude i = ([], Ok tt).
Proof.
  intros Hi Hl Hcase. unfold item_body, mbind, emit_mbind.
  rewrite (excluded_no_folder exclude i Hi), emit_bind_lift_ok, Hl,
    emit_bind_lift_ok.
  destruct Hcase as [->|([un Hun] & [pw Hpw] & Hus)]; [reflexivity|].
  destruct login; try reflexivity;
    now rewrite Hun, emit_bind_lift_ok, Hpw, emit_bind_lift_ok, Hus.
Qed.

Lemma folderless_item_without_uri_is_skipped_witness :
  dict_get (credential JNull "a" "x" []) "folderId" = Ok JNull /\
  item_body (rt := sample_runtime only_work work_doc)
    (JStr "1") JNull (credential JNull "a" "x" []) = ([], Ok tt).
Proof.
  split; [reflexivity|].
  refine (folderless_item_without_uri_is_skipped
            (rt := sample_runtime only_work work_doc)
            (JStr "1") JNull (credential JNull "a" "x" []) _
            eq_refl eq_refl (or_intror _)).
  split; [now exists (JStr "a")|]. split; [now exists (JStr "x")|reflexivity].
Defined.

(** ** The loop: the order of the records *)

(** X9: when every item is processed to its end, the records are written
    item by item in the order of the document, the records of one item
    together. *)
Theorem records_follow_document_order {rt : Runtime}
    folder_id exclude js items recss :
  getitem js "items" = Ok (JList items) ->
  Forall2 (fun i recs => item_body folder_id exclude i = (recs, Ok tt))
    items recss ->
  convert_items folder_id exclude js = (concat recss, Ok tt).
Proof.
  intros Hitems Hall. unfold convert_items, mbind, emit_mbind.
  rewrite Hitems. cbn [result_mbind py_iter]. rewrite emit_bind_lift_ok.
  clear Hitems.
  induction Hall as [|i recs items recss Hi _ IH]; [reflexivity|].
  cbn [for_each]. rewrite Hi. cbn [emit_bind]. rewrite IH. reflexivity.
Qed.

Lemma records_follow_document_order_witness :
  getitem nested_ids_doc "items"
  = Ok (JList [credential (JStr "1") "a" "x" ["https://w.example"];
               credential (JStr "12") "b" "y"
                 ["https://h.example"; "https://g.example"]]) /\
  convert_items (rt := sample_runtime only_file nested_ids_doc)
    JNull JNull nested_ids_doc
  = (["https://w.example,a,x"; "https://h.example,b,y";
      "https://g.example,b,y"], Ok tt).
Proof.
  split; [reflexivity|].
  apply (records_follow_document_order
           (rt := sample_runtime only_file nested_ids_doc)
           JNull JNull nested_ids_doc _
           [["https://w.example,a,x"];
            ["https://h.example,b,y"; "https://g.example,b,y"]] eq_refl).
  repeat constructor.
Defined.

(** X10: the run stops at the first item that raises.  It ends with
    that item's exception, and what it wrote are the records of the items
    before it, in their order, followed by what the raising item wrote
    before it raised: no later item is processed, and nothing of a later
    item is written. *)
Theorem run_stops_at_first_raising_item {rt : Runtime}
    folder_id exclude js pre i post recss part e :
  getitem js "items" = Ok (JList (pre ++ i :: post)%list) ->
  Forall2 (fun j recs => item_body folder_id exclude j = (recs, Ok tt))
    pre recss ->
  item_body folder_id exclude i = (part, Raise e) ->
  convert_items folder_id exclude js = ((concat recss ++ part)%list, Raise e).
Proof.
  intros Hitems Hpre Hi. unfold convert_items, mbind, emit_mbind.
  rewrite Hitems. cbn [result_mbind py_iter]. rewrite emit_bind_lift_ok.
  clear Hitems.
  induction Hpre as [|j recs pre recss Hj _ IH].
  - cbn [app for_each concat]. now rewrite Hi.
  - cbn [app for_each concat]. rewrite Hj. cbn [emit_bind].
    rewrite IH. now rewrite app_assoc.
Qed.

Lemma run_stops_at_first_raising_item_witness :
  getitem broken_middle_doc "items"
  = Ok (JList ([credential (JStr "1") "a" "x" ["https://w.example"]]
               ++ item_without_username
               :: [credential (JStr "12") "b" "y" ["https://h.example"]])%list)
  /\
  item_body (rt := sample_runtime only_file broken_middle_doc)
    JNull JNull item_without_username = ([], Raise (KeyError "username")) /\
  convert_items (rt := sample_runtime only_file broken_middle_doc)
    JNull JNull broken_middle_doc
  = (["https://w.example,a,x"], Raise (KeyError "username")).
Proof.
  split; [reflexivity|]. split; [reflexivity|].
  apply (run_stops_at_first_raising_item
           (rt := sample_runtime only_file broken_middle_doc)
           JNull JNull broken_middle_doc
           [credential (JStr "1") "a" "x" ["https://w.example"]]
           item_without_username
           [credential (JStr "12") "b" "y" ["https://h.example"]]
           [["https://w.example,a,x"]] [] (KeyError "username")
           eq_refl); [|reflexivity].
  repeat constructor.
Defined.

(** ** [folder_name_to_id]: what a result tells *)

Lemma py_eq_str n name : py_eq n (JStr name) = true <-> n = JStr name.
Proof.
  destruct n; cbn; try (split; [discriminate|congruence]).
  rewrite String.eqb_eq. split; congruence.
Qed.

Lemma find_folder_inv fs name idv :
  find_folder fs name = Ok idv -> idv <> JNull ->
  exists pre f post,
    fs = (pre ++ f :: post)%list /\
    Forall (fun g => exists n, getitem g "name" = Ok n /\ n <> JStr name) pre /\
    getitem f "name" = Ok (JStr name) /\
    getitem f "id" = Ok idv.
Proof.
  intros Hfind Hidv. induction fs as [|g fs IH]; cbn [find_folder] in Hfind.
  - injection Hfind as <-. congruence.
  - destruct (getitem g "name") as [n|e] eqn:Hn; [|discriminate].
    cbn [mbind result_mbind] in Hfind.
    destruct (py_eq n (JStr name)) eqn:Heq.
    + apply py_eq_str in Heq as ->. now exists [], g, fs.
    + destruct (IH Hfind) as (pre & f & post & -> & Hpre & Hname & Hid).
      exists (g :: pre), f, post. split; [reflexivity|].
      split; [|now split]. constructor; [|exact Hpre].
      exists n. split; [exact Hn|]. intros ->.
      rewrite (proj2 (py_eq_str _ _) eq_refl) in Heq. discriminate.
Qed.

(** X14: an id that [folder_name_to_id] returns is the [id] of a folder
    of the document whose name is the given one, and every folder before
    it has a name that differs. *)
Theorem resolved_id_is_of_first_named_folder js name idv :
  folder_name_to_id js name = Ok idv -> idv <> JNull ->
  exists pre f post,
    getitem js "folders" ≫= py_iter = Ok (pre ++ f :: post)%list /\
    Forall (fun g => exists n, getitem g "name" = Ok n /\ n <> JStr name) pre /\
    getitem f "name" = Ok (JStr name) /\
    getitem f "id" = Ok idv.
Proof.
  unfold folder_name_to_id. intros Hres Hidv.
  destruct (getitem js "folders") as [fs|e]; [|discriminate].
  cbn [mbind result_mbind] in *.
  destruct (py_iter fs) as [l|e]; [|discriminate].
  cbn [mbind result_mbind] in *.
  destruct (find_folder_inv l name idv Hres Hidv)
    as (pre & f & post & -> & Hrest).
  now exists pre, f, post.
Qed.

Lemma resolved_id_is_of_first_named_folder_witness :
  folder_name_to_id twin_doc "Home" = Ok (JStr "2") /\
  exists pre f post,
    getitem twin_doc "folders" ≫= py_iter = Ok (pre ++ f :: post)%list /\
    Forall (fun g => exists n, getitem g "name" = Ok n /\ n <> JStr "Home")
      pre /\
    getitem f "name" = Ok (JStr "Home") /\
    getitem f "id" = Ok (JStr "2").
Proof.
  split; [reflexivity|].
  apply (resolved_id_is_of_first_named_folder twin_doc "Home" (JStr "2"));
    [reflexivity|discriminate].
Defined.

(** X15: resolution reads the folders one by one up to the first match.
    A folder without a [name] entry that comes before any match makes it
    raise [KeyError], also when a later folder has the name; a matching
    folder without an [id] entry does the same. *)
Theorem malformed_folder_raises js name pre d post :
  getitem js "folders" = Ok (JList (pre ++ JDict d :: post)%list) ->
  Forall (named_otherwise name) pre ->
  (dict_lookup "name" d = None ->
   folder_name_to_id js name = Raise (KeyError "name")) /\
  (dict_lookup "name" d = Some (JStr name) ->
   dict_lookup "id" d = None ->
   folder_name_to_id js name = Raise (KeyError "id")).
Proof.
  intros Hfs Hpre. unfold folder_name_to_id. rewrite Hfs.
  cbn [mbind result_mbind py_iter].
  rewrite (find_folder_skip _ _ _ Hpre). cbn [find_folder getitem].
  split.
  - now intros ->.
  - intros -> Hid. cbn [mbind result_mbind py_eq].
    now rewrite String.eqb_refl, Hid.
Qed.

Lemma malformed_folder_raises_witness :
  getitem unnamed_folder_doc "folders"
  = Ok (JList ([] ++ JDict [("id", JStr "1")] :: [folder "2" "Home"])%list) /\
  folder_name_to_id unnamed_folder_doc "Home" = Raise (KeyError "name").
Proof.
  split; [reflexivity|].
  apply (proj1 (malformed_folder_raises unnamed_folder_doc "Home" []
                  [("id", JStr "1")] [folder "2" "Home"] eq_refl
                  (List.Forall_nil _))).
  reflexivity.
Defined.

(** ** The output file: one line per record *)

Lemma count_newlines_app s t :
  count_newlines (s +:+ t) = (count_newlines s + count_newlines t)%nat.
Proof.
  induction s as [|c s IH]; simpl; [reflexivity|]. rewrite IH. lia.
Qed.

(** X16: when no record contains a line end, the text written to the
    output file has as many line ends as there are records: one line per
    record, and none for no record. *)
Theorem one_line_per_record records :
  Forall (fun item => count_newlines item = 0%nat) records ->
  count_newlines (csv_text records) = length records.
Proof.
  induction 1 as [|item records Hitem _ IH]; [reflexivity|].
  cbn [csv_text foldr length]. fold (csv_text records).
  rewrite !count_newlines_app, Hitem, IH. reflexivity.
Qed.

Lemma one_line_per_record_witness :
  Forall (fun item => count_newlines item = 0%nat)
    ["https://h.example,b,y"; "https://g.example,b,y"] /\
  count_newlines (csv_text ["https://h.example,b,y"; "https://g.example,b,y"])
  = 2%nat.
Proof.
  assert (H : Forall (fun item => count_newlines item = 0%nat)
                ["https://h.example,b,y"; "https://g.example,b,y"])
    by (repeat constructor).
  split; [exact H|]. exact (one_line_per_record _ H).
Defined.

(** ** The loop: filter and exclusion together *)

Lemma getitem_dict_get i k v : getitem i k = Ok v -> dict_get i k = Ok v.
Proof.
  destruct i; try discriminate. cbn.
  destruct (dict_lookup k d); [|discriminate]. now intros [= ->].
Qed.

(** X19: for string ids, none empty, an item whose login data can be read
    is written exactly when its [folderId] does not occur within the
    exclude id and the include id occurs within its [folderId]; then all
    its records are written, in the order of its URIs. *)
Theorem filter_and_exclude_decision {rt : Runtime} fid e s i un pw vs :
  fid <> "" -> e <> "" -> s <> "" ->
  getitem i "folderId" = Ok (JStr s) ->
  reads_login i un pw vs ->
  item_body (JStr fid) (JStr e) i
  = (if negb (occurs_in s e) && occurs_in fid s
     then map (fun v => record_text v un pw) vs else [], Ok tt).
Proof.
  intros Hfid He Hs Hi Hr.
  assert (Hex : excluded (JStr e) i = Ok (occurs_in s e)).
  { unfold excluded. rewrite (getitem_dict_get _ _ _ Hi).
    cbn [mbind result_mbind].
    now rewrite (truthy_str _ Hs), (truthy_str _ He). }
  destruct (occurs_in s e) eqn:Hocc.
  - unfold item_body, mbind, emit_mbind.
    now rewrite Hex, emit_bind_lift_ok.
  - cbn [negb andb].
    apply (item_body_records (JStr fid) (JStr e) i un pw vs _ Hex Hr).
    unfold include_test. now rewrite (truthy_str _ Hfid), Hi.
Qed.

Lemma filter_and_exclude_decision_witness :
  getitem (credential (JStr "12") "b" "y"
             ["https://h.example"; "https://g.example"]) "folderId"
  = Ok (JStr "12") /\
  item_body (rt := sample_runtime only_work nested_ids_doc)
    (JStr "1") (JStr "3")
    (credential (JStr "12") "b" "y" ["https://h.example"; "https://g.example"])
  = (["https://h.example,b,y"; "https://g.example,b,y"], Ok tt).
Proof.
  split; [reflexivity|].
  refine (filter_and_exclude_decision
            (rt := sample_runtime only_work nested_ids_doc)
            "1" "3" "12"
            (credential (JStr "12") "b" "y"
               ["https://h.example"; "https://g.example"])
            (JStr "b") (JStr "y")
            [JStr "https://h.example"; JStr "https://g.example"]
            _ _ _ eq_refl _); try discriminate.
  eexists _, _. repeat split. repeat constructor.
Defined.

(** ** [main]: standard output *)

Section Stdout.
Context {rt : Runtime}.

Lemma convert_stdout_grows args w :
  exists out, stdout (convert args w).2 = (stdout w ++ out)%list.
Proof.
  destruct (given (file args)) eqn:Hg.
  - destruct (given_inv _ Hg) as (path & Hf & Hp).
    rewrite (convert_stages args path w Hf Hp).
    assert (Hsame : exists out, stdout w = (stdout w ++ out)%list)
      by (exists []; now rewrite app_nil_r).
    destruct (files w !! path) as [text|]; [|exact Hsame].
    destruct (json_loads text) as [js|]; [|exact Hsame].
    destruct (resolve js (filter args)); [|exact Hsame].
    destruct (resolve js (exclude args)); [|exact Hsame].
    unfold with_csv. cbn [snd stdout]. eauto.
  - rewrite convert_without_file by exact Hg. cbn [snd stdout]. eauto.
Qed.

End Stdout.

(** X20: every run first prints the banner, with or without arguments,
    and keeps what was on standard output before it. *)
Theorem banner_is_printed_first {rt : Runtime} argv w :
  exists rest,
    stdout (main argv w).2
    = (stdout w ++ "Bitwarden to Mooltipass" :: rest)%list.
Proof.
  destruct (Nat.ltb_spec (length argv) 2) as [Hlt|Hge].
  - rewrite (main_without_arguments argv w Hlt). cbn [snd stdout].
    exists [help_text]. now rewrite <- app_assoc.
  - destruct (parse_args argv).2 as [args|e] eqn:Hargs.
    + rewrite (main_parsed argv args w Hge Hargs).
      destruct (convert_stdout_grows args
                  (World (files w)
                     ((stdout w ++ ["Bitwarden to Mooltipass"])
                        ++ (parse_args argv).1))) as [out ->].
      cbn [stdout]. exists ((parse_args argv).1 ++ out)%list.
      now rewrite <- !app_assoc.
    + rewrite (main_parser_exit argv e w Hge Hargs). cbn [snd stdout].
      exists (parse_args argv).1. now rewrite <- app_assoc.
Qed.
